(** * GCSClient: the failure-containing facade over the storage SDK

    A shallow embedding of [gcs_client.py].  The Python class [GCSClient]
    wraps every call into the Google Cloud Storage SDK in a [try]/[except]
    that logs the failure and returns a sentinel.  The embedding keeps

    - the exceptions of Python as data (class and message), with the class
      hierarchy that decides which [except] clause catches them;
    - the [logging] module's process-wide registry of loggers, which the
      constructor mutates (level, handlers) and every operation writes to;
    - the SDK as an interface (a type class): each SDK call is a transition
      on an external state that returns a value or raises;
    - statements as a small monad with three completions (normal, [return],
      raise), so that the operations read like their Python text. *)

From Stdlib Require Import ZArith String Ascii List Decimal DecimalString Lia.
From stdpp Require Import base gmap strings list.

Local Open Scope string_scope.
Local Open Scope Z_scope.

(** ** Python values the client manipulates *)

(** [str(n)] for a non-negative integer such as [len(xs)]. *)
Definition str_of_nat (n : nat) : string :=
  NilEmpty.string_of_uint (Nat.to_uint n).

(** [needle in hay] on Python strings: [needle] occurs as a substring. *)
Fixpoint str_in (needle hay : string) : bool :=
  String.prefix needle hay ||
  match hay with
  | EmptyString => false
  | String _ rest => str_in needle rest
  end.

(** [s.startswith(p)]: what the service's prefix filter computes. *)
Definition startswith (s p : string) : bool := String.prefix p s.

(** ** Exceptions *)

Module Exn.

(** The classes that can reach the handlers of [gcs_client.py]: Python's
    built-ins and the SDK's [google.api_core.exceptions]. *)
Inductive cls : Type :=
| BaseException
| KeyboardInterrupt
| SystemExit
| Exception
| TypeError
| ValueError
| OSError
| FileNotFoundError
| ConnectionError
| GoogleAPICallError
| ClientError
| NotFound
| Forbidden
| Conflict
| ServerError
| ServiceUnavailable.

#[global] Instance cls_eq_dec : EqDecision cls.
Proof. solve_decision. Defined.

(** The direct base class ([None] for the root of the hierarchy). *)
Definition base (c : cls) : option cls :=
  match c with
  | BaseException => None
  | KeyboardInterrupt | SystemExit | Exception => Some BaseException
  | TypeError | ValueError | OSError | GoogleAPICallError => Some Exception
  | FileNotFoundError | ConnectionError => Some OSError
  | ClientError | ServerError => Some GoogleAPICallError
  | NotFound | Forbidden | Conflict => Some ClientError
  | ServiceUnavailable => Some ServerError
  end.

Fixpoint issubclass_upto (fuel : nat) (c d : cls) : bool :=
  bool_decide (c = d) ||
  match fuel, base c with
  | S fuel', Some b => issubclass_upto fuel' b d
  | _, _ => false
  end.

(** The hierarchy is five classes deep. *)
Definition issubclass (c d : cls) : bool := issubclass_upto 5 c d.

(** A raised exception object: its class and [str(e)]. *)
Record t : Type := make { class : cls; str : string }.

Definition isinstance (e : t) (c : cls) : bool := issubclass (class e) c.

End Exn.

Abbreviation exn := Exn.t.

(** ** The [logging] module *)

Module Logging.

Definition NOTSET : Z := 0.
Definition DEBUG : Z := 10.
Definition INFO : Z := 20.
Definition WARNING : Z := 30.
Definition ERROR : Z := 40.

(** A [StreamHandler] with the format string of its [Formatter]. *)
Record Handler : Type := StreamHandler { formatter : string }.

Record Logger : Type := mkLogger { level : Z; handlers : list Handler }.

Record LogRecord : Type :=
  mkRecord { rec_name : string; levelno : Z; message : string }.

(** The process-wide state of the module: the manager's dictionary of
    named loggers, the root logger, the calls made to logger methods (a
    trace, whether or not the level let them through), the records the
    handlers wrote to their stream, each with the handler's format, the
    level [logging.disable] set ([manager.disable]) and the loggers whose
    [disabled] flag is set. *)
Record state : Type := mkState {
  loggerDict : gmap string Logger;
  root : Logger;
  calls : list LogRecord;
  stream : list (string * LogRecord);
  disable : Z;
  disabled : gset string
}.

(** A process that has not touched [logging]: the root logger is at
    WARNING and has no handler, [manager.disable] is 0 and no logger is
    disabled. *)
Definition fresh : state :=
  {| loggerDict := ∅; root := mkLogger WARNING []; calls := []; stream := [];
     disable := 0; disabled := ∅ |}.

(** [logging.getLogger(name)]: the logger registered under [name], created
    (level NOTSET, no handler) when there is none.  The logger object is
    shared: it is denoted by its name. *)
Definition getLogger (name : string) (s : state) : state :=
  match loggerDict s !! name with
  | Some _ => s
  | None =>
      {| loggerDict := <[name := mkLogger NOTSET []]> (loggerDict s);
         root := root s; calls := calls s; stream := stream s;
         disable := disable s; disabled := disabled s |}
  end.

Definition the_logger (s : state) (name : string) : Logger :=
  default (mkLogger NOTSET []) (loggerDict s !! name).

Definition update (name : string) (f : Logger -> Logger) (s : state) : state :=
  {| loggerDict := <[name := f (the_logger s name)]> (loggerDict s);
     root := root s; calls := calls s; stream := stream s;
     disable := disable s; disabled := disabled s |}.

(** [logger.setLevel(lvl)] *)
Definition setLevel (name : string) (lvl : Z) : state -> state :=
  update name (fun l => mkLogger lvl (handlers l)).

(** [logger.addHandler(h)] *)
Definition addHandler (name : string) (h : Handler) : state -> state :=
  update name (fun l => mkLogger (level l) (handlers l ++ [h])).

(** The dotted ancestors of a logger name, nearest first:
    ["a.b.c"] has ["a.b"] and ["a"]. *)
Fixpoint dotted_prefixes (acc s : string) : list string :=
  match s with
  | EmptyString => []
  | String c rest =>
      if Ascii.eqb c "."
      then dotted_prefixes (acc +:+ String c EmptyString) rest ++ [acc]
      else dotted_prefixes (acc +:+ String c EmptyString) rest
  end.

(** The chain [logger, logger.parent, ..., root]: the parent of a logger
    is its nearest dotted ancestor that is registered, the root logger
    otherwise. *)
Definition chain (s : state) (name : string) : list Logger :=
  the_logger s name ::
  omap (fun a => loggerDict s !! a) (dotted_prefixes EmptyString name) ++ [root s].

(** [logger.getEffectiveLevel()]: the first level in the chain that is not
    NOTSET, and NOTSET when there is none. *)
Fixpoint first_set_level (ls : list Logger) : Z :=
  match ls with
  | [] => NOTSET
  | l :: rest => if Z.eqb (level l) NOTSET then first_set_level rest else level l
  end.

Definition getEffectiveLevel (s : state) (name : string) : Z :=
  first_set_level (chain s name).

(** [logger.isEnabledFor(lvl)]: never for a disabled logger, nor for a
    level that [manager.disable] reaches; otherwise from the effective
    level on. *)
Definition isEnabledFor (s : state) (name : string) (lvl : Z) : bool :=
  negb (bool_decide (name ∈ disabled s)) &&
  negb (lvl <=? disable s) &&
  (getEffectiveLevel s name <=? lvl).

(** The level of a handler: NOTSET, where [StreamHandler()] leaves it. *)
Definition handler_level (h : Handler) : Z := NOTSET.

(** The format of [logging.lastResort], the handler at WARNING that
    serves when the chain has no handler at all. *)
Definition lastResort_format : string := "%(message)s".

(** [logger.log(lvl, msg)]: when enabled, the record is handed to every
    handler of the chain (loggers propagate by default) whose level it
    reaches, and to [lastResort] when the chain has no handler. *)
Definition log (name : string) (lvl : Z) (msg : string) (s : state) : state :=
  let r := mkRecord name lvl msg in
  {| loggerDict := loggerDict s;
     root := root s;
     calls := calls s ++ [r];
     stream :=
       if isEnabledFor s name lvl
       then stream s ++
            match concat (map handlers (chain s name)) with
            | [] => if WARNING <=? lvl then [(lastResort_format, r)] else []
            | h :: hs =>
                map (fun h => (formatter h, r))
                  (List.filter (fun h => handler_level h <=? lvl) (h :: hs))
            end
       else stream s;
     disable := disable s;
     disabled := disabled s |}.

End Logging.

(** ** Objects of the SDK *)

(** The values Python puts in the metadata dictionary. *)
Inductive pyval : Type :=
| PyNone
| PyStr (s : string)
| PyInt (n : Z)
| PyDatetime (t : Z).

Definition py_of {A} (f : A -> pyval) (o : option A) : pyval :=
  match o with Some a => f a | None => PyNone end.

Module Credentials.
Record t : Type := make { project_id : string }.
End Credentials.

Module Client.
(** [storage.Client]: the authenticated handle. *)
Record t : Type := make { project : string }.
End Client.

Module Bucket.
(** [storage.Bucket]: a local handle on a bucket name. *)
Record t : Type := make { name : string }.
End Bucket.

Module Blob.
(** [storage.Blob]: a local handle on an object, with the properties the
    client reads; they are unset ([None]) until the service filled them. *)
Record t : Type := make {
  bucket : Bucket.t;
  name : string;
  size : option Z;
  content_type : option string;
  time_created : option Z;
  updated : option Z;
  md5_hash : option string
}.
End Blob.

(** A call either returns a value or raises. *)
Inductive result (A : Type) : Type :=
| Ok (a : A)
| Err (e : exn).
Arguments Ok {A} a.
Arguments Err {A} e.

(** Everything outside [gcs_client.py] that the client calls, as transitions
    on an external state [St] (the remote service, the local files, the
    process environment, the standard output): [dotenv], [os.environ],
    [google.oauth2], [google.cloud.storage] and the write to [sys.stdout]
    that [print] makes, which raises when the stream is closed or cannot
    encode the text. *)
Class SDK (St : Type) : Type := {
  load_dotenv : St -> result bool * St;
  os_environ_get : string -> St -> option string;
  from_service_account_file : option string -> St -> result Credentials.t * St;
  storage_Client : Credentials.t -> St -> result Client.t * St;
  Client_create_bucket : Client.t -> string -> St -> result Bucket.t * St;
  Client_list_buckets : Client.t -> St -> result (list Bucket.t) * St;
  Client_bucket : Client.t -> string -> St -> result Bucket.t * St;
  Client_delete_bucket : Client.t -> string -> St -> result unit * St;
  Bucket_exists : Bucket.t -> St -> result bool * St;
  Bucket_list_blobs : Bucket.t -> string -> St -> result (list Blob.t) * St;
  Bucket_blob : Bucket.t -> string -> St -> result Blob.t * St;
  Blob_upload_from_filename : Blob.t -> string -> St -> result unit * St;
  Blob_download_to_filename : Blob.t -> string -> St -> result unit * St;
  Blob_reload : Blob.t -> St -> result Blob.t * St;
  Blob_delete : Blob.t -> St -> result unit * St;
  sys_stdout_write : string -> St -> result unit * St
}.

(** ** Statements *)

(** The process as the client sees it. *)
Record world (St : Type) : Type := mkWorld {
  logging : Logging.state;
  stdout : list string;
  external : St
}.
Arguments mkWorld {St} _ _ _.
Arguments logging {St} _.
Arguments stdout {St} _.
Arguments external {St} _.

(** How a block of statements of a function returning [R] completes. *)
Inductive completion (R A : Type) : Type :=
| Normal (a : A)
| Returned (r : R)
| Raised (e : exn).
Arguments Normal {R A} a.
Arguments Returned {R A} r.
Arguments Raised {R A} e.

Definition Stmt (St R A : Type) : Type := world St -> completion R A * world St.

Section Statements.
Context {St R : Type} {sdk : SDK St}.

Definition ret {A} (a : A) : Stmt St R A := fun w => (Normal a, w).

Definition bind {A B} (c : Stmt St R A) (k : A -> Stmt St R B) : Stmt St R B :=
  fun w =>
    match c w with
    | (Normal a, w') => k a w'
    | (Returned r, w') => (Returned r, w')
    | (Raised e, w') => (Raised e, w')
    end.

(** [return r] *)
Definition return_ {A} (r : R) : Stmt St R A := fun w => (Returned r, w).

(** [raise] *)
Definition raise {A} (e : exn) : Stmt St R A := fun w => (Raised e, w).

Definition pass : Stmt St R unit := ret tt.

(** A call into the SDK. *)
Definition call {A} (c : St -> result A * St) : Stmt St R A :=
  fun w =>
    let '(r, s) := c (external w) in
    let w' := mkWorld (logging w) (stdout w) s in
    match r with
    | Ok a => (Normal a, w')
    | Err e => (Raised e, w')
    end.

(** A read of the external state. *)
Definition read {A} (f : St -> A) : Stmt St R A :=
  fun w => (Normal (f (external w)), w).

Definition with_logging (f : Logging.state -> Logging.state) : Stmt St R unit :=
  fun w => (Normal tt, mkWorld (f (logging w)) (stdout w) (external w)).

(** A read of the logging state. *)
Definition read_logging {A} (f : Logging.state -> A) : Stmt St R A :=
  fun w => (Normal (f (logging w)), w).

Definition logger_info (logger msg : string) : Stmt St R unit :=
  with_logging (Logging.log logger Logging.INFO msg).
Definition logger_warning (logger msg : string) : Stmt St R unit :=
  with_logging (Logging.log logger Logging.WARNING msg).
Definition logger_error (logger msg : string) : Stmt St R unit :=
  with_logging (Logging.log logger Logging.ERROR msg).

(** [print(msg)]: the line is on the standard output when the write
    returned, and the error of the write is raised otherwise. *)
Definition print (msg : string) : Stmt St R unit :=
  fun w =>
    let '(r, s) := sys_stdout_write msg (external w) in
    match r with
    | Ok _ => (Normal tt, mkWorld (logging w) (stdout w ++ [msg]) s)
    | Err e => (Raised e, mkWorld (logging w) (stdout w) s)
    end.

(** [try: body except C1 as e: h1 e except C2 as e: h2 e ...]: the first
    clause whose class the exception is an instance of handles it, and an
    exception no clause matches goes on. *)
Definition try_ {A} (body : Stmt St R A)
    (clauses : list (Exn.cls * (exn -> Stmt St R A))) : Stmt St R A :=
  fun w =>
    match body w with
    | (Raised e, w') =>
        match List.find (fun c => Exn.isinstance e (fst c)) clauses with
        | Some (_, h) => h e w'
        | None => (Raised e, w')
        end
    | done => done
    end.

(** The call of a function whose body is [body]. *)
Definition def (body : Stmt St R R) : world St -> result R * world St :=
  fun w =>
    match body w with
    | (Normal r, w') => (Ok r, w')
    | (Returned r, w') => (Ok r, w')
    | (Raised e, w') => (Err e, w')
    end.

End Statements.

Definition except {St R A} (c : Exn.cls) (h : exn -> Stmt St R A)
  : Exn.cls * (exn -> Stmt St R A) := (c, h).

Declare Scope stmt_scope.
Delimit Scope stmt_scope with stmt.
Notation "x <- c ;; k" := (bind c (fun x => k))
  (at level 100, c at next level, right associativity) : stmt_scope.
Notation "c ;; k" := (bind c (fun _ => k))
  (at level 100, right associativity) : stmt_scope.

Local Open Scope stmt_scope.

(** ** The class [GCSClient] *)

(** An instance: [self.logger] (the shared logger, by name) and
    [self.client]. *)
Record GCSClient : Type := mkGCSClient {
  logger : string;
  client : Client.t
}.

(** The metadata dictionary of [get_file_metadata]. *)
Abbreviation metadata_dict := (gmap string pyval).

Section Client.
Context {St : Type} {sdk : SDK St}.

(** The name of the module, [__name__]. *)
Variable module_name : string.

(** [f"{__name__}.{self.__class__.__name__}"] for an instance of the class
    itself. *)
Definition logger_name : string := module_name +:+ "." +:+ "GCSClient".

Definition log_format : string :=
  "%(asctime)s - %(name)s - %(levelname)s - %(message)s".

(** The [try] block of the constructor. *)
Definition init_try (logger : string) : Stmt St GCSClient Client.t :=
  call load_dotenv ;;
  path <- read (os_environ_get "GOOGLE_APPLICATION_CREDENTIALS") ;;
  credentials <- call (from_service_account_file path) ;;
  client <- call (storage_Client credentials) ;;
  logger_info logger
    ("GCS client initialized for project: " +:+ Client.project client) ;;
  ret client.

(** The logger set-up that precedes the [try] block. *)
Definition init_logger (log_level : Z) : Stmt St GCSClient string :=
  let logger := logger_name in
  with_logging (Logging.getLogger logger) ;;
  with_logging (Logging.setLevel logger log_level) ;;
  handlers <- read_logging (fun s => Logging.handlers (Logging.the_logger s logger)) ;;
  match handlers with
  | [] =>
      let handler := Logging.StreamHandler log_format in
      with_logging (Logging.addHandler logger handler)
  | _ :: _ => pass
  end ;;
  ret logger.

(** [GCSClient(log_level)]: [__init__] on a new instance. *)
Definition init (log_level : Z) : world St -> result GCSClient * world St :=
  def (
    logger <- init_logger log_level ;;
    client <- try_ (init_try logger)
      [except Exn.Exception (fun e =>
         logger_error logger
           ("Failed to initialize GCS client: " +:+ Exn.str e) ;;
         raise e)] ;;
    ret (mkGCSClient logger client)).

Variable self : GCSClient.

Definition create_bucket_try (bucket_name : string) : Stmt St bool unit :=
  call (Client_create_bucket (client self) bucket_name) ;;
  pass.

Definition create_bucket (bucket_name : string) : world St -> result bool * world St :=
  def (
    try_ (create_bucket_try bucket_name)
      [except Exn.Exception (fun e =>
         logger_error (logger self)
           ("Failed to create bucket '" +:+ bucket_name +:+ "': " +:+ Exn.str e) ;;
         return_ false)] ;;
    return_ true).

Definition list_buckets_try : Stmt St (list string) (list string) :=
  buckets <- call (Client_list_buckets (client self)) ;;
  let bucket_names := map Bucket.name buckets in
  logger_info (logger self)
    ("Found " +:+ str_of_nat (length bucket_names) +:+ " buckets") ;;
  return_ bucket_names.

Definition list_buckets : world St -> result (list string) * world St :=
  def (
    try_ list_buckets_try
      [except Exn.Exception (fun e =>
         logger_error (logger self) ("Failed to list buckets: " +:+ Exn.str e) ;;
         return_ [])]).

Definition bucket_exists_try (bucket_name : string) : Stmt St bool bool :=
  bucket <- call (Client_bucket (client self) bucket_name) ;;
  exists_ <- call (Bucket_exists bucket) ;;
  return_ exists_.

Definition bucket_exists (bucket_name : string) : world St -> result bool * world St :=
  def (
    try_ (bucket_exists_try bucket_name)
      [except Exn.Exception (fun e =>
         (if str_in "403" (Exn.str e) || str_in "Permission" (Exn.str e)
          then
            logger_warning (logger self)
              ("Permission denied checking bucket '" +:+ bucket_name +:+
               "'. Assuming it doesn't exist or no access.") ;;
            return_ false
          else pass) ;;
         logger_error (logger self)
           ("Failed to check if bucket '" +:+ bucket_name +:+ "' exists: " +:+
            Exn.str e) ;;
         return_ false)]).

Definition list_files_try (bucket_name prefix : string)
  : Stmt St (list string) (list string) :=
  bucket <- call (Client_bucket (client self) bucket_name) ;;
  blobs <- call (Bucket_list_blobs bucket prefix) ;;
  let file_names := map Blob.name blobs in
  logger_info (logger self)
    ("Found " +:+ str_of_nat (length file_names) +:+ " files in bucket '" +:+
     bucket_name +:+ "'") ;;
  return_ file_names.

(** [list_files(bucket_name, prefix)]; the default of [prefix] is the empty
    string. *)
Definition list_files (bucket_name prefix : string)
  : world St -> result (list string) * world St :=
  def (
    try_ (list_files_try bucket_name prefix)
      [except Exn.Exception (fun e =>
         logger_error (logger self)
           ("Failed to list files in bucket '" +:+ bucket_name +:+ "': " +:+
            Exn.str e) ;;
         return_ [])]).

Definition upload_file_try (bucket_name source_file_name destination_blob_name : string)
  : Stmt St bool unit :=
  bucket <- call (Client_bucket (client self) bucket_name) ;;
  blob <- call (Bucket_blob bucket destination_blob_name) ;;
  call (Blob_upload_from_filename blob source_file_name) ;;
  print ("File " +:+ source_file_name +:+ " uploaded to " +:+
         destination_blob_name +:+ ".").

Definition upload_file (bucket_name source_file_name destination_blob_name : string)
  : world St -> result bool * world St :=
  def (
    try_ (upload_file_try bucket_name source_file_name destination_blob_name)
      [except Exn.Exception (fun e =>
         logger_error (logger self)
           ("Failed to upload file '" +:+ source_file_name +:+ "': " +:+ Exn.str e) ;;
         return_ false)] ;;
    return_ true).

Definition download_file_try (bucket_name source_blob_name destination_file_name : string)
  : Stmt St bool unit :=
  bucket <- call (Client_bucket (client self) bucket_name) ;;
  blob <- call (Bucket_blob bucket source_blob_name) ;;
  call (Blob_download_to_filename blob destination_file_name) ;;
  print ("Downloaded storage object " +:+ source_blob_name +:+ " from bucket " +:+
         bucket_name +:+ " to local file " +:+ destination_file_name +:+ ".").

Definition download_file (bucket_name source_blob_name destination_file_name : string)
  : world St -> result bool * world St :=
  def (
    try_ (download_file_try bucket_name source_blob_name destination_file_name)
      [except Exn.Exception (fun e =>
         logger_error (logger self)
           ("Failed to download file '" +:+ source_blob_name +:+ "': " +:+ Exn.str e) ;;
         return_ false)] ;;
    return_ true).

Definition get_file_metadata_try (bucket_name blob_name : string)
  : Stmt St (option metadata_dict) (option metadata_dict) :=
  bucket <- call (Client_bucket (client self) bucket_name) ;;
  blob <- call (Bucket_blob bucket blob_name) ;;
  blob <- call (Blob_reload blob) ;;
  let metadata : metadata_dict :=
    list_to_map
      [("name", PyStr (Blob.name blob));
       ("size", py_of PyInt (Blob.size blob));
       ("content_type", py_of PyStr (Blob.content_type blob));
       ("created", py_of PyDatetime (Blob.time_created blob));
       ("updated", py_of PyDatetime (Blob.updated blob));
       ("md5_hash", py_of PyStr (Blob.md5_hash blob))] in
  return_ (Some metadata).

Definition get_file_metadata (bucket_name blob_name : string)
  : world St -> result (option metadata_dict) * world St :=
  def (
    try_ (get_file_metadata_try bucket_name blob_name)
      [except Exn.NotFound (fun _ =>
         logger_warning (logger self)
           ("File '" +:+ blob_name +:+ "' not found in bucket '" +:+
            bucket_name +:+ "'") ;;
         return_ None);
       except Exn.Exception (fun e =>
         logger_error (logger self)
           ("Failed to get metadata for file '" +:+ blob_name +:+ "': " +:+
            Exn.str e) ;;
         return_ None)]).

Definition delete_file_try (bucket_name blob_name : string) : Stmt St bool unit :=
  bucket <- call (Client_bucket (client self) bucket_name) ;;
  blob <- call (Bucket_blob bucket blob_name) ;;
  call (Blob_delete blob).

Definition delete_file (bucket_name blob_name : string)
  : world St -> result bool * world St :=
  def (
    try_ (delete_file_try bucket_name blob_name)
      [except Exn.Exception (fun e =>
         logger_error (logger self)
           ("Failed to delete blob '" +:+ blob_name +:+ "': " +:+ Exn.str e) ;;
         return_ false)] ;;
    return_ true).

Definition delete_bucket_try (bucket_name : string) : Stmt St bool unit :=
  call (Client_delete_bucket (client self) bucket_name).

Definition delete_bucket (bucket_name : string) : world St -> result bool * world St :=
  def (
    try_ (delete_bucket_try bucket_name)
      [except Exn.Exception (fun e =>
         logger_error (logger self)
           ("Failed to delete bucket '" +:+ bucket_name +:+ "': " +:+ Exn.str e) ;;
         return_ false)] ;;
    return_ true).

End Client.

(** ** The storage service *)

Module Service.

(** Modelled from the spec: the remote object-storage service, the local
    files and the process environment, which belong to the SDK and the
    platform and are not part of the repository.  A bucket is identified by
    its name and holds objects identified by their names; an object has its
    bytes, a content type and its creation and update times; size and MD5
    are those of the bytes. *)
Record object : Type := mkObject {
  data : list Byte.byte;
  ctype : option string;
  created : Z;
  modified : Z
}.

(** Modelled from the spec: the failures of a call that are not about its
    target: the caller lacks authorization, the service is unavailable, the
    network fails. *)
Inductive failure_kind : Type :=
| Denied
| Unavailable
| Network.

Record failure : Type := mkFailure { kind : failure_kind; detail : string }.

(** The error the SDK raises for a failure. *)
Definition error_of (f : failure) : exn :=
  match kind f with
  | Denied => Exn.make Exn.Forbidden ("403 " +:+ detail f)
  | Unavailable => Exn.make Exn.ServiceUnavailable ("503 " +:+ detail f)
  | Network => Exn.make Exn.ConnectionError (detail f)
  end.

(** Modelled from the spec: the external state.  [failures] is what the
    next remote calls meet, one entry a call: [Some f] is a failure of the
    call itself, which raises and leaves the service as it was; [None], or
    no entry, lets the call through.  [stdout_open] tells whether the
    standard output of the process is still open. *)
Record state : Type := mkState {
  buckets : gmap string (gmap string object);
  files : gmap string (list Byte.byte);
  environ : gmap string string;
  dotenv : gmap string string;
  clock : Z;
  failures : list (option failure);
  stdout_open : bool
}.

(** Modelled from the spec: the functions of the platform the service and
    the SDK compute with: the base64 MD5 digest (never empty: 24
    characters), the content type guessed from a file name, and the
    project a service-account key file names (none when it is malformed). *)
Class Codecs : Type := {
  md5_b64 : list Byte.byte -> string;
  md5_b64_nonempty : forall bs, md5_b64 bs <> EmptyString;
  guess_type : string -> option string;
  project_of_key : list Byte.byte -> option string
}.

(** A change of the buckets, which advances the clock of the service. *)
Definition store (b : gmap string (gmap string object)) (s : state) : state :=
  mkState b (files s) (environ s) (dotenv s) (clock s + 1) (failures s)
    (stdout_open s).

Definition set_files (f : gmap string (list Byte.byte)) (s : state) : state :=
  mkState (buckets s) f (environ s) (dotenv s) (clock s) (failures s)
    (stdout_open s).

Definition set_failures (l : list (option failure)) (s : state) : state :=
  mkState (buckets s) (files s) (environ s) (dotenv s) (clock s) l
    (stdout_open s).

(** Modelled from the spec: a remote call, which meets the next entry of
    [failures] before it reaches the service. *)
Definition remote {A} (op : state -> result A * state) (s : state)
  : result A * state :=
  match failures s with
  | Some f :: rest => (Err (error_of f), set_failures rest s)
  | None :: rest => op (set_failures rest s)
  | [] => op s
  end.

Definition not_found (what : string) : exn :=
  Exn.make Exn.NotFound ("404 " +:+ what +:+ " does not exist").

Definition conflict (what : string) : exn :=
  Exn.make Exn.Conflict ("409 " +:+ what).

Section Calls.
Context {codecs : Codecs}.

(** Modelled from the spec: [load_dotenv()] adds the variables of the
    [.env] file that the environment does not define yet. *)
Definition load_dotenv (s : state) : result bool * state :=
  (Ok (negb (bool_decide (dotenv s = ∅))),
   mkState (buckets s) (files s) (environ s ∪ dotenv s) (dotenv s) (clock s)
     (failures s) (stdout_open s)).

Definition os_environ_get (k : string) (s : state) : option string :=
  environ s !! k.

(** Modelled from the spec: the credential file is read from the path;
    no path, a missing file and a malformed key are failures. *)
Definition from_service_account_file (path : option string) (s : state)
  : result Credentials.t * state :=
  match path with
  | None =>
      (Err (Exn.make Exn.TypeError
              "expected str, bytes or os.PathLike object, not NoneType"), s)
  | Some p =>
      match files s !! p with
      | None =>
          (Err (Exn.make Exn.FileNotFoundError
                  ("[Errno 2] No such file or directory: '" +:+ p +:+ "'")), s)
      | Some key =>
          match project_of_key key with
          | None =>
              (Err (Exn.make Exn.ValueError
                      "Service account info was not in the expected format"), s)
          | Some proj => (Ok (Credentials.make proj), s)
          end
      end
  end.

Definition storage_Client (c : Credentials.t) (s : state)
  : result Client.t * state :=
  (Ok (Client.make (Credentials.project_id c)), s).

(** Modelled from the spec: bucket names are unique; creating one that
    exists is a failure. *)
Definition Client_create_bucket (_ : Client.t) (name : string)
  : state -> result Bucket.t * state :=
  remote (fun s =>
    match buckets s !! name with
    | Some _ => (Err (conflict ("bucket " +:+ name +:+ " already exists")), s)
    | None => (Ok (Bucket.make name), store (<[name := ∅]> (buckets s)) s)
    end).

Definition Client_list_buckets (_ : Client.t)
  : state -> result (list Bucket.t) * state :=
  remote (fun s => (Ok (map (fun kv => Bucket.make (fst kv)) (map_to_list (buckets s))), s)).

Definition Client_bucket (_ : Client.t) (name : string) (s : state)
  : result Bucket.t * state :=
  (Ok (Bucket.make name), s).

(** Modelled from the spec: the service requires the bucket be empty. *)
Definition Client_delete_bucket (_ : Client.t) (name : string)
  : state -> result unit * state :=
  remote (fun s =>
    match buckets s !! name with
    | None => (Err (not_found ("bucket " +:+ name)), s)
    | Some objs =>
        if bool_decide (objs = ∅)
        then (Ok tt, store (delete name (buckets s)) s)
        else (Err (conflict ("bucket " +:+ name +:+ " is not empty")), s)
    end).

Definition Bucket_exists (b : Bucket.t) : state -> result bool * state :=
  remote (fun s => (Ok (bool_decide (is_Some (buckets s !! Bucket.name b))), s)).

(** The handle on an object, with the properties the service reports. *)
Definition blob_of (b : Bucket.t) (name : string) (o : object) : Blob.t :=
  Blob.make b name
    (Some (Z.of_nat (length (data o))))
    (ctype o)
    (Some (created o))
    (Some (modified o))
    (Some (md5_b64 (data o))).

(** Modelled from the spec: the objects whose names start with the
    prefix, in the order the service enumerates them. *)
Definition Bucket_list_blobs (b : Bucket.t) (prefix : string)
  : state -> result (list Blob.t) * state :=
  remote (fun s =>
    match buckets s !! Bucket.name b with
    | None => (Err (not_found ("bucket " +:+ Bucket.name b)), s)
    | Some objs =>
        (Ok (map (fun kv => blob_of b (fst kv) (snd kv))
               (List.filter (fun kv => startswith (fst kv) prefix)
                  (map_to_list objs))), s)
    end).

Definition Bucket_blob (b : Bucket.t) (name : string) (s : state)
  : result Blob.t * state :=
  (Ok (Blob.make b name None None None None None), s).

Definition lookup_object (blob : Blob.t) (s : state) : option object :=
  objs ← buckets s !! Bucket.name (Blob.bucket blob); objs !! Blob.name blob.

(** Modelled from the spec: an upload reads the local file and stores
    its bytes under the object name, replacing what was there. *)
Definition Blob_upload_from_filename (blob : Blob.t) (path : string) (s : state)
  : result unit * state :=
  match files s !! path with
  | None =>
      (Err (Exn.make Exn.FileNotFoundError
              ("[Errno 2] No such file or directory: '" +:+ path +:+ "'")), s)
  | Some bytes =>
      remote (fun s =>
        let bname := Bucket.name (Blob.bucket blob) in
        match buckets s !! bname with
        | None => (Err (not_found ("bucket " +:+ bname)), s)
        | Some objs =>
            let o := mkObject bytes (guess_type path) (clock s) (clock s) in
            (Ok tt, store (<[bname := <[Blob.name blob := o]> objs]> (buckets s)) s)
        end) s
  end.

(** Modelled from the spec: a download writes the bytes of the object to
    the local path. *)
Definition Blob_download_to_filename (blob : Blob.t) (path : string)
  : state -> result unit * state :=
  remote (fun s =>
    match lookup_object blob s with
    | None => (Err (not_found ("object " +:+ Blob.name blob)), s)
    | Some o => (Ok tt, set_files (<[path := data o]> (files s)) s)
    end).

Definition Blob_reload (blob : Blob.t) : state -> result Blob.t * state :=
  remote (fun s =>
    match lookup_object blob s with
    | None => (Err (not_found ("object " +:+ Blob.name blob)), s)
    | Some o => (Ok (blob_of (Blob.bucket blob) (Blob.name blob) o), s)
    end).

Definition Blob_delete (blob : Blob.t) : state -> result unit * state :=
  remote (fun s =>
    let bname := Bucket.name (Blob.bucket blob) in
    match buckets s !! bname with
    | None => (Err (not_found ("bucket " +:+ bname)), s)
    | Some objs =>
        match objs !! Blob.name blob with
        | None => (Err (not_found ("object " +:+ Blob.name blob)), s)
        | Some _ =>
            (Ok tt, store (<[bname := delete (Blob.name blob) objs]> (buckets s)) s)
        end
    end).

(** A write to the standard output: an error when the stream was closed. *)
Definition sys_stdout_write (_ : string) (s : state) : result unit * state :=
  if stdout_open s
  then (Ok tt, s)
  else (Err (Exn.make Exn.ValueError "I/O operation on closed file."), s).

#[export] Instance sdk : SDK state := {
  load_dotenv := load_dotenv;
  os_environ_get := os_environ_get;
  from_service_account_file := from_service_account_file;
  storage_Client := storage_Client;
  Client_create_bucket := Client_create_bucket;
  Client_list_buckets := Client_list_buckets;
  Client_bucket := Client_bucket;
  Client_delete_bucket := Client_delete_bucket;
  Bucket_exists := Bucket_exists;
  Bucket_list_blobs := Bucket_list_blobs;
  Bucket_blob := Bucket_blob;
  Blob_upload_from_filename := Blob_upload_from_filename;
  Blob_download_to_filename := Blob_download_to_filename;
  Blob_reload := Blob_reload;
  Blob_delete := Blob_delete;
  sys_stdout_write := sys_stdout_write
}.

End Calls.

End Service.

(** ** A process to run the client in *)

Module Demo.
Import Service.

(** Stand-ins for the functions of the platform, for runs on concrete
    inputs: every digest is that of the empty input and every file is
    text. *)
#[export] Instance codecs : Codecs.
Proof.
  refine {| md5_b64 := fun _ => "1B2M2Y8AsgTpgAmY7PhCfg==";
            guess_type := fun _ => Some "text/plain";
            project_of_key := fun _ => Some "demo-project" |}.
  intros _. discriminate.
Defined.

Definition readme : list Byte.byte := [Byte.x47; Byte.x43; Byte.x53; Byte.x0a].

(** A machine with a key file, the variable that names it and a file to
    upload; nothing in the service yet; the remote calls meet [fs]. *)
Definition machine (fs : list (option failure)) : state :=
  mkState ∅
    {["key.json" := []; "README" := readme]}
    {["GOOGLE_APPLICATION_CREDENTIALS" := "key.json"]}
    ∅ 0 fs true.

(** A process that has not logged yet, on that machine. *)
Definition boot (fs : list (option failure)) : world state :=
  mkWorld Logging.fresh [] (machine fs).

(** The same with no credentials configured. *)
Definition boot_without_credentials : world state :=
  mkWorld Logging.fresh [] (mkState ∅ ∅ ∅ ∅ 0 [] true).

(** The instance a successful construction in [boot fs] returns. *)
Definition me : GCSClient :=
  mkGCSClient "gcs_client.GCSClient" (Client.make "demo-project").

(** The world after that construction. *)
Definition started (fs : list (option failure)) : world state :=
  snd (init "gcs_client" Logging.INFO (boot fs)).

Definition unavailable : failure := mkFailure Unavailable "Service Unavailable".
Definition denied : failure :=
  mkFailure Denied "caller does not have storage.buckets.get access".

(** The world after [create_bucket("t1")] in the started process. *)
Definition with_bucket (fs : list (option failure)) : world state :=
  snd (create_bucket me "t1" (started fs)).

(** The world after [upload_file("t1", "README", "README")] on top of it. *)
Definition with_object (fs : list (option failure)) : world state :=
  snd (upload_file me "t1" "README" "README" (with_bucket fs)).

(** The same world with the next remote call consumed: what a [try] block
    leaves when its remote call, the first one it makes, fails. *)
Definition next_call_done (w : world state) : world state :=
  mkWorld (logging w) (stdout w) (set_failures (tail (failures (external w))) (external w)).

(** The same world with the standard output closed. *)
Definition close_stdout (w : world state) : world state :=
  mkWorld (logging w) (stdout w)
    (mkState (buckets (external w)) (files (external w)) (environ (external w))
       (dotenv (external w)) (clock (external w)) (failures (external w)) false).



End Demo.

(** ** An interrupted process *)

Module Interrupted.

(** What the interpreter raises when the user interrupts a call:
    [KeyboardInterrupt], which is not an [Exception]; its [str] is empty. *)
Definition interrupt : exn := Exn.make Exn.KeyboardInterrupt EmptyString.

Definition stop {A} (s : unit) : result A * unit := (Err interrupt, s).

(** An SDK every call of which is interrupted. *)
#[export] Instance sdk : SDK unit := {
  load_dotenv := stop;
  os_environ_get := fun _ _ => None;
  from_service_account_file := fun _ => stop;
  storage_Client := fun _ => stop;
  Client_create_bucket := fun _ _ => stop;
  Client_list_buckets := fun _ => stop;
  Client_bucket := fun _ _ => stop;
  Client_delete_bucket := fun _ _ => stop;
  Bucket_exists := fun _ => stop;
  Bucket_list_blobs := fun _ _ => stop;
  Bucket_blob := fun _ _ => stop;
  Blob_upload_from_filename := fun _ _ => stop;
  Blob_download_to_filename := fun _ _ => stop;
  Blob_reload := fun _ => stop;
  Blob_delete := fun _ => stop;
  sys_stdout_write := fun _ => stop
}.

Definition boot : world unit := mkWorld Logging.fresh [] tt.

Definition me : GCSClient :=
  mkGCSClient "gcs_client.GCSClient" (Client.make "demo-project").

End Interrupted.

(** ** Vocabulary of the properties *)

(** The world after [logger.log(lvl, msg)]. *)
Definition logged {St} (logger : string) (lvl : Z) (msg : string) (w : world St)
  : world St :=
  mkWorld (Logging.log logger lvl msg (logging w)) (stdout w) (external w).

(** [needle] occurs in [hay]. *)
Definition contains (hay needle : string) : Prop :=
  exists a b, hay = a +:+ needle +:+ b.

(** The operation returned [r] and logged one record, at level [lvl], after
    its [try] block left the world [w']. *)
Definition contained {St A} (self : GCSClient) (run : result A * world St)
    (r : A) (lvl : Z) (w' : world St) : Prop :=
  exists msg, run = (Ok r, logged (logger self) lvl msg w').

(** Two logging states with the same loggers: the same dictionary and the
    same root logger (calls and output may differ). *)
Definition same_loggers (s s' : Logging.state) : Prop :=
  Logging.loggerDict s' = Logging.loggerDict s /\ Logging.root s' = Logging.root s.

(** A statement that neither registers nor reconfigures a logger. *)
Definition keeps_loggers {St R A} (c : Stmt St R A) : Prop :=
  forall w, same_loggers (logging w) (logging (snd (c w))).

(** What the constructor does to the logging state before its [try] block:
    get the logger, set its level, attach a handler when it has none. *)
Definition configure (name : string) (lvl : Z) (s : Logging.state) : Logging.state :=
  let s1 := Logging.setLevel name lvl (Logging.getLogger name s) in
  match Logging.handlers (Logging.the_logger s1 name) with
  | [] => Logging.addHandler name (Logging.StreamHandler log_format) s1
  | _ :: _ => s1
  end.

(** The handlers attached to a logger. *)
Definition attached {St} (name : string) (w : world St) : list Logging.Handler :=
  Logging.handlers (Logging.the_logger (logging w) name).

(** A use of the class: a construction or a call of an operation on an
    instance. *)
Inductive api_call : Type :=
| DoInit (log_level : Z)
| DoCreateBucket (self : GCSClient) (bucket_name : string)
| DoListBuckets (self : GCSClient)
| DoBucketExists (self : GCSClient) (bucket_name : string)
| DoListFiles (self : GCSClient) (bucket_name prefix : string)
| DoUploadFile (self : GCSClient) (bucket_name source_file_name destination_blob_name : string)
| DoDownloadFile (self : GCSClient) (bucket_name source_blob_name destination_file_name : string)
| DoGetFileMetadata (self : GCSClient) (bucket_name blob_name : string)
| DoDeleteFile (self : GCSClient) (bucket_name blob_name : string)
| DoDeleteBucket (self : GCSClient) (bucket_name : string).

Definition is_init (c : api_call) : bool :=
  match c with DoInit _ => true | _ => false end.

Section Runs.
Context {St : Type} {sdk : SDK St}.
Variable module_name : string.

(** The world after a use of the class (the result is dropped). *)
Definition run_call (c : api_call) (w : world St) : world St :=
  match c with
  | DoInit lvl => snd (init module_name lvl w)
  | DoCreateBucket self b => snd (create_bucket self b w)
  | DoListBuckets self => snd (list_buckets self w)
  | DoBucketExists self b => snd (bucket_exists self b w)
  | DoListFiles self b p => snd (list_files self b p w)
  | DoUploadFile self b src dst => snd (upload_file self b src dst w)
  | DoDownloadFile self b src dst => snd (download_file self b src dst w)
  | DoGetFileMetadata self b n => snd (get_file_metadata self b n w)
  | DoDeleteFile self b n => snd (delete_file self b n w)
  | DoDeleteBucket self b => snd (delete_bucket self b w)
  end.

(** The world after a sequence of uses, in order. *)
Definition run_calls (cs : list api_call) (w : world St) : world St :=
  fold_left (fun w c => run_call c w) cs w.

End Runs.

(** The error a call ended with, if it raised. *)
Definition error_of_result {A} (r : result A) : option exn :=
  match r with
  | Ok _ => None
  | Err e => Some e
  end.

Section Outcomes.
Context {St : Type} {sdk : SDK St}.
Variable module_name : string.

(** The exception a use of the class lets out, if any. *)
Definition call_error (c : api_call) (w : world St) : option exn :=
  match c with
  | DoInit lvl => error_of_result (fst (init module_name lvl w))
  | DoCreateBucket self b => error_of_result (fst (create_bucket self b w))
  | DoListBuckets self => error_of_result (fst (list_buckets self w))
  | DoBucketExists self b => error_of_result (fst (bucket_exists self b w))
  | DoListFiles self b p => error_of_result (fst (list_files self b p w))
  | DoUploadFile self b src dst => error_of_result (fst (upload_file self b src dst w))
  | DoDownloadFile self b src dst => error_of_result (fst (download_file self b src dst w))
  | DoGetFileMetadata self b n => error_of_result (fst (get_file_metadata self b n w))
  | DoDeleteFile self b n => error_of_result (fst (delete_file self b n w))
  | DoDeleteBucket self b => error_of_result (fst (delete_bucket self b w))
  end.

End Outcomes.

(** The instance a use of the class is made on ([None] for a construction). *)
Definition instance_of (c : api_call) : option GCSClient :=
  match c with
  | DoInit _ => None
  | DoCreateBucket self _ | DoListBuckets self | DoBucketExists self _
  | DoListFiles self _ _ | DoUploadFile self _ _ _ | DoDownloadFile self _ _ _
  | DoGetFileMetadata self _ _ | DoDeleteFile self _ _ | DoDeleteBucket self _ =>
      Some self
  end.

(** What a boolean operation that started in [w] logged: nothing when it
    returned [True] (or let an exception out), one record at error level,
    through the logger of the instance, when it returned [False]. *)
Definition logs_error_iff_false {St} (self : GCSClient) (w : world St)
    (run : result bool * world St) : Prop :=
  match fst run with
  | Ok false =>
      exists msg,
        Logging.calls (logging (snd run)) =
          (Logging.calls (logging w) ++
           [Logging.mkRecord (logger self) Logging.ERROR msg])%list
  | _ => Logging.calls (logging (snd run)) = Logging.calls (logging w)
  end.

(** The six keys of the metadata dictionary. *)
Definition metadata_keys : gset string :=
  {[ "name"; "size"; "content_type"; "created"; "updated"; "md5_hash" ]}.

(** The environment variable the constructor reads. *)
Definition credentials_variable : string := "GOOGLE_APPLICATION_CREDENTIALS".

(** * Properties *)

(** ** Strings *)

Lemma append_cons (c : ascii) (s t : string) :
  String c s +:+ t = String c (s +:+ t).
Proof. reflexivity. Qed.

Lemma append_nil (t : string) : EmptyString +:+ t = t.
Proof. reflexivity. Qed.

Lemma prefix_app (p s : string) :
  String.prefix p s = true <-> exists t, s = p +:+ t.
Proof.
  revert s; induction p as [|c p IH]; intros s.
  - split; [intros _; by exists s | by destruct s].
  - destruct s as [|d s]; simpl.
    + split; [done | intros [t Ht]; discriminate].
    + setoid_rewrite append_cons.
      destruct (Ascii.ascii_dec c d) as [->|Hne].
      * rewrite IH. split; intros [t Ht]; exists t; congruence.
      * split; [done | intros [t Ht]; congruence].
Qed.

(** [str_in] is the substring test. *)
Lemma str_in_spec (needle hay : string) :
  str_in needle hay = true <-> exists a b, hay = a +:+ needle +:+ b.
Proof.
  induction hay as [|c hay IH].
  - change (str_in needle EmptyString)
      with (String.prefix needle EmptyString || false).
    rewrite orb_false_r, prefix_app. split.
    + intros [t Ht]. by exists EmptyString, t.
    + intros (a & b & Hab). destruct a; [by exists b | discriminate].
  - change (str_in needle (String c hay))
      with (String.prefix needle (String c hay) || str_in needle hay).
    rewrite orb_true_iff, prefix_app, IH. split.
    + intros [[t Ht] | (a & b & Hab)].
      * by exists EmptyString, t.
      * exists (String c a), b. by rewrite append_cons, Hab.
    + intros (a & b & Hab). destruct a as [|d a].
      * left. by exists b.
      * right. exists a, b. rewrite append_cons in Hab. congruence.
Qed.

(** ** Exceptions *)

Lemma not_found_is_exception (e : exn) :
  Exn.isinstance e Exn.NotFound = true -> Exn.isinstance e Exn.Exception = true.
Proof. destruct e as [c msg]. by destruct c. Qed.

(** ** Statements *)

Section StatementFacts.
Context {St R : Type}.

Lemma try_raised {A} (body : Stmt St R A) clauses (w w' : world St) e :
  body w = (Raised e, w') ->
  try_ body clauses w =
    match List.find (fun c => Exn.isinstance e (fst c)) clauses with
    | Some (_, h) => h e w'
    | None => (Raised e, w')
    end.
Proof. intros H. unfold try_. by rewrite H. Qed.

Lemma try_normal {A} (body : Stmt St R A) clauses (w w' : world St) a :
  body w = (Normal a, w') -> try_ body clauses w = (Normal a, w').
Proof. intros H. unfold try_. by rewrite H. Qed.

Lemma try_returned {A} (body : Stmt St R A) clauses (w w' : world St) r :
  body w = (Returned r, w') -> try_ body clauses w = (Returned r, w').
Proof. intros H. unfold try_. by rewrite H. Qed.

(** A call into the SDK raises exactly when the SDK does. *)
Lemma call_raised {A} (c : St -> result A * St) (w : world St) e s :
  c (external w) = (Err e, s) ->
  call (R:=R) c w = (Raised e, mkWorld (logging w) (stdout w) s).
Proof. intros H. unfold call. by rewrite H. Qed.

Lemma call_normal {A} (c : St -> result A * St) (w : world St) a s :
  c (external w) = (Ok a, s) ->
  call (R:=R) c w = (Normal a, mkWorld (logging w) (stdout w) s).
Proof. intros H. unfold call. by rewrite H. Qed.

(** What a statement raises, the block it starts raises. *)
Lemma bind_raised {A B} (c : Stmt St R A) (k : A -> Stmt St R B) (w w' : world St) e :
  c w = (Raised e, w') -> bind c k w = (Raised e, w').
Proof. intros H. unfold bind. by rewrite H. Qed.

Lemma bind_normal {A B} (c : Stmt St R A) (k : A -> Stmt St R B) (w w' : world St) a :
  c w = (Normal a, w') -> bind c k w = k a w'.
Proof. intros H. unfold bind. by rewrite H. Qed.

End StatementFacts.

(** Unfold a handler that has been selected. *)
Ltac run_handler :=
  unfold bind, logger_error, logger_warning, logger_info, with_logging,
    return_, raise, pass, ret, logged; simpl.

(** Run an operation whose [try] block raises as [H] says. *)
Ltac raise_in_try H :=
  unfold def, bind; rewrite (try_raised _ _ _ _ _ H); unfold except; simpl.

(** ** Failure containment *)

Section Containment.
Context {St : Type} {sdk : SDK St}.
Variable self : GCSClient.

(** C1. Every operation other than construction returns its sentinel
    instead of propagating, whatever error its [try] block (the calls into
    the service) raises: [False] for the boolean operations, the empty
    list for the listings, [None] for [get_file_metadata]. *)
Theorem failure_returns_sentinel (w w' : world St) (e : exn) :
  Exn.isinstance e Exn.Exception = true ->
  (forall b, create_bucket_try self b w = (Raised e, w') ->
     fst (create_bucket self b w) = Ok false) /\
  (list_buckets_try self w = (Raised e, w') ->
     fst (list_buckets self w) = Ok []) /\
  (forall b, bucket_exists_try self b w = (Raised e, w') ->
     fst (bucket_exists self b w) = Ok false) /\
  (forall b p, list_files_try self b p w = (Raised e, w') ->
     fst (list_files self b p w) = Ok []) /\
  (forall b src dst, upload_file_try self b src dst w = (Raised e, w') ->
     fst (upload_file self b src dst w) = Ok false) /\
  (forall b src dst, download_file_try self b src dst w = (Raised e, w') ->
     fst (download_file self b src dst w) = Ok false) /\
  (forall b n, get_file_metadata_try self b n w = (Raised e, w') ->
     fst (get_file_metadata self b n w) = Ok None) /\
  (forall b n, delete_file_try self b n w = (Raised e, w') ->
     fst (delete_file self b n w) = Ok false) /\
  (forall b, delete_bucket_try self b w = (Raised e, w') ->
     fst (delete_bucket self b w) = Ok false).
Proof.
  intros He.
  repeat split; intros;
    match goal with
    | H : _ = (Raised e, w') |- _ =>
        unfold create_bucket, list_buckets, bucket_exists, list_files,
          upload_file, download_file, get_file_metadata, delete_file,
          delete_bucket;
        raise_in_try H
    end;
    rewrite ?He; simpl; try reflexivity.
  - destruct (str_in _ _ || str_in _ _); reflexivity.
  - destruct (Exn.isinstance e Exn.NotFound); reflexivity.
Qed.

(** C3. An error raised during [bucket_exists] whose message contains
    "403" or "Permission" is logged at warning level, and no record at
    error level is added; every other error is logged at error level; the
    result is [False] in both cases. *)
Theorem bucket_exists_failure (b : string) (w w' : world St) (e : exn) :
  bucket_exists_try self b w = (Raised e, w') ->
  Exn.isinstance e Exn.Exception = true ->
  (contains (Exn.str e) "403" \/ contains (Exn.str e) "Permission" ->
     bucket_exists self b w =
       (Ok false,
        logged (logger self) Logging.WARNING
          ("Permission denied checking bucket '" +:+ b +:+
           "'. Assuming it doesn't exist or no access.") w')) /\
  (~ (contains (Exn.str e) "403" \/ contains (Exn.str e) "Permission") ->
     bucket_exists self b w =
       (Ok false,
        logged (logger self) Logging.ERROR
          ("Failed to check if bucket '" +:+ b +:+ "' exists: " +:+ Exn.str e)
          w')).
Proof.
  intros H He. unfold bucket_exists, contains.
  rewrite <- !str_in_spec, <- orb_true_iff.
  raise_in_try H. rewrite He.
  destruct (str_in _ _ || str_in _ _); split; intros Hc;
    first [reflexivity | discriminate | by destruct Hc].
Qed.

(** C4. In [get_file_metadata] a not-found error is logged at warning
    level and every other error at error level; the result is [None] in
    both cases, so the returned value does not tell them apart. *)
Theorem get_file_metadata_failure (b n : string) (w w' : world St) (e : exn) :
  get_file_metadata_try self b n w = (Raised e, w') ->
  Exn.isinstance e Exn.Exception = true ->
  (Exn.isinstance e Exn.NotFound = true ->
     get_file_metadata self b n w =
       (Ok None,
        logged (logger self) Logging.WARNING
          ("File '" +:+ n +:+ "' not found in bucket '" +:+ b +:+ "'") w')) /\
  (Exn.isinstance e Exn.NotFound = false ->
     get_file_metadata self b n w =
       (Ok None,
        logged (logger self) Logging.ERROR
          ("Failed to get metadata for file '" +:+ n +:+ "': " +:+ Exn.str e)
          w')).
Proof.
  intros H He. unfold get_file_metadata.
  split; intros Hnf; raise_in_try H; rewrite Hnf; [reflexivity |].
  rewrite He. reflexivity.
Qed.

(** C8, as the code has it.  A not-found error is logged at warning level
    by [get_file_metadata] only.  Every other operation hands it to its
    general handler, which logs at error level ([bucket_exists]: at
    warning level when the message contains "403" or "Permission", at
    error level otherwise); each returns its sentinel. *)
Theorem not_found_handling (w w' : world St) (e : exn) :
  Exn.isinstance e Exn.NotFound = true ->
  (forall b n, get_file_metadata_try self b n w = (Raised e, w') ->
     contained self (get_file_metadata self b n w) None Logging.WARNING w') /\
  (forall b, create_bucket_try self b w = (Raised e, w') ->
     contained self (create_bucket self b w) false Logging.ERROR w') /\
  (list_buckets_try self w = (Raised e, w') ->
     contained self (list_buckets self w) [] Logging.ERROR w') /\
  (forall b p, list_files_try self b p w = (Raised e, w') ->
     contained self (list_files self b p w) [] Logging.ERROR w') /\
  (forall b src dst, upload_file_try self b src dst w = (Raised e, w') ->
     contained self (upload_file self b src dst w) false Logging.ERROR w') /\
  (forall b src dst, download_file_try self b src dst w = (Raised e, w') ->
     contained self (download_file self b src dst w) false Logging.ERROR w') /\
  (forall b n, delete_file_try self b n w = (Raised e, w') ->
     contained self (delete_file self b n w) false Logging.ERROR w') /\
  (forall b, delete_bucket_try self b w = (Raised e, w') ->
     contained self (delete_bucket self b w) false Logging.ERROR w') /\
  (forall b, bucket_exists_try self b w = (Raised e, w') ->
     contained self (bucket_exists self b w) false
       (if str_in "403" (Exn.str e) || str_in "Permission" (Exn.str e)
        then Logging.WARNING else Logging.ERROR) w').
Proof.
  intros Hnf. pose proof (not_found_is_exception e Hnf) as He.
  repeat split; intros;
    match goal with
    | H : _ = (Raised e, w') |- _ =>
        unfold contained, create_bucket, list_buckets, bucket_exists,
          list_files, upload_file, download_file, get_file_metadata,
          delete_file, delete_bucket;
        raise_in_try H
    end;
    rewrite ?Hnf, ?He; simpl; try (eexists; reflexivity).
  destruct (str_in _ _ || str_in _ _); eexists; reflexivity.
Qed.

(** The error of the remote call of [upload_file], the third call of its
    [try] block, is an error of the block; so for the other operations. *)
Lemma upload_file_try_raises (b src dst : string) (w : world St) bk s1 blob s2 e s3 :
  Client_bucket (client self) b (external w) = (Ok bk, s1) ->
  Bucket_blob bk dst s1 = (Ok blob, s2) ->
  Blob_upload_from_filename blob src s2 = (Err e, s3) ->
  upload_file_try self b src dst w = (Raised e, mkWorld (logging w) (stdout w) s3).
Proof.
  intros H1 H2 H3. unfold upload_file_try.
  rewrite (bind_normal (call (Client_bucket (client self) b)) _ w _ bk
             (call_normal _ w bk s1 H1)).
  rewrite (bind_normal (call (Bucket_blob bk dst)) _ _ _ blob
             (call_normal _ (mkWorld (logging w) (stdout w) s1) blob s2 H2)).
  apply bind_raised.
  exact (call_raised _ (mkWorld (logging w) (stdout w) s2) e s3 H3).
Qed.

(** What is not an error goes through: an exception outside [Exception]
    (an interrupt, an exit) is not caught by any operation. *)
Lemma interrupt_propagates (w w' : world St) (e : exn) :
  Exn.isinstance e Exn.Exception = false ->
  (forall b, create_bucket_try self b w = (Raised e, w') ->
     create_bucket self b w = (Err e, w')) /\
  (forall b, bucket_exists_try self b w = (Raised e, w') ->
     bucket_exists self b w = (Err e, w')) /\
  (forall b n, get_file_metadata_try self b n w = (Raised e, w') ->
     get_file_metadata self b n w = (Err e, w')).
Proof.
  intros He.
  assert (Hnf : Exn.isinstance e Exn.NotFound = false).
  { destruct (Exn.isinstance e Exn.NotFound) eqn:E; [|done].
    apply not_found_is_exception in E. congruence. }
  repeat apply conj; intros;
    match goal with
    | H : _ = (Raised e, w') |- _ =>
        unfold create_bucket, bucket_exists, get_file_metadata; raise_in_try H
    end;
    by rewrite ?Hnf, ?He.
Qed.

End Containment.

(** ** What leaves the loggers alone *)

Lemma same_loggers_refl s : same_loggers s s.
Proof. by split. Qed.

Lemma same_loggers_trans s1 s2 s3 :
  same_loggers s1 s2 -> same_loggers s2 s3 -> same_loggers s1 s3.
Proof. intros [? ?] [? ?]. split; congruence. Qed.

Lemma same_loggers_log name lvl msg s : same_loggers s (Logging.log name lvl msg s).
Proof. by split. Qed.

Lemma same_loggers_the_logger s s' name :
  same_loggers s s' -> Logging.the_logger s' name = Logging.the_logger s name.
Proof. intros [Hd _]. unfold Logging.the_logger. by rewrite Hd. Qed.

Lemma same_loggers_effective s s' name :
  same_loggers s s' -> Logging.getEffectiveLevel s' name = Logging.getEffectiveLevel s name.
Proof.
  intros [Hd Hr]. unfold Logging.getEffectiveLevel, Logging.chain, Logging.the_logger.
  by rewrite Hd, Hr.
Qed.

Section Frame.
Context {St R : Type}.

Lemma keeps_ret {A} (a : A) : keeps_loggers (St:=St) (R:=R) (ret a).
Proof. intros w. apply same_loggers_refl. Qed.

Lemma keeps_pass : keeps_loggers (St:=St) (R:=R) pass.
Proof. apply keeps_ret. Qed.

Lemma keeps_return {A} (r : R) : keeps_loggers (St:=St) (R:=R) (@return_ St R A r).
Proof. intros w. apply same_loggers_refl. Qed.

Lemma keeps_raise {A} (e : exn) : keeps_loggers (St:=St) (R:=R) (@raise St R A e).
Proof. intros w. apply same_loggers_refl. Qed.

Lemma keeps_call {A} (c : St -> result A * St) : keeps_loggers (St:=St) (R:=R) (call c).
Proof.
  intros w. unfold call. destruct (c (external w)) as [[a|e] s];
    apply same_loggers_refl.
Qed.

Lemma keeps_read {A} (f : St -> A) : keeps_loggers (St:=St) (R:=R) (read f).
Proof. intros w. apply same_loggers_refl. Qed.

Lemma keeps_print {sdk : SDK St} msg : keeps_loggers (St:=St) (R:=R) (print msg).
Proof.
  intros w. unfold print.
  destruct (sys_stdout_write msg (external w)) as [[u|e] s];
    apply same_loggers_refl.
Qed.

Lemma keeps_info name msg : keeps_loggers (St:=St) (R:=R) (logger_info name msg).
Proof. intros w. apply same_loggers_log. Qed.

Lemma keeps_warning name msg : keeps_loggers (St:=St) (R:=R) (logger_warning name msg).
Proof. intros w. apply same_loggers_log. Qed.

Lemma keeps_error name msg : keeps_loggers (St:=St) (R:=R) (logger_error name msg).
Proof. intros w. apply same_loggers_log. Qed.

Lemma keeps_bind {A B} (c : Stmt St R A) (k : A -> Stmt St R B) :
  keeps_loggers (St:=St) (R:=R) c -> (forall a, keeps_loggers (St:=St) (R:=R) (k a)) -> keeps_loggers (St:=St) (R:=R) (bind c k).
Proof.
  intros Hc Hk w. unfold bind. specialize (Hc w).
  destruct (c w) as [[a|r|e] w1]; simpl in *; try done.
  eapply same_loggers_trans; [exact Hc | apply Hk].
Qed.

Lemma keeps_if {A} (b : bool) (c d : Stmt St R A) :
  keeps_loggers (St:=St) (R:=R) c -> keeps_loggers (St:=St) (R:=R) d -> keeps_loggers (St:=St) (R:=R) (if b then c else d).
Proof. by destruct b. Qed.

Lemma keeps_try {A} (body : Stmt St R A) clauses :
  keeps_loggers (St:=St) (R:=R) body ->
  Forall (fun c => forall e, keeps_loggers (St:=St) (R:=R) (snd c e)) clauses ->
  keeps_loggers (St:=St) (R:=R) (try_ body clauses).
Proof.
  intros Hb Hcs w. unfold try_. specialize (Hb w).
  destruct (body w) as [[a|r|e] w1]; simpl in *; try done.
  destruct (List.find _ clauses) as [[c h]|] eqn:Hf; simpl; [|done].
  apply find_some in Hf as [Hin _].
  rewrite Forall_forall in Hcs.
  pose proof (Hcs _ (proj2 (list_elem_of_In _ _) Hin) e) as Hh.
  eapply same_loggers_trans; [exact Hb | apply Hh].
Qed.

Lemma keeps_def (body : Stmt St R R) :
  keeps_loggers (St:=St) (R:=R) body -> forall w, same_loggers (logging w) (logging (snd (def body w))).
Proof.
  intros Hb w. unfold def. specialize (Hb w).
  by destruct (body w) as [[a|r|e] w1].
Qed.

End Frame.

(** Decompose an operation into its statements. *)
Ltac keeps :=
  repeat first
    [ apply keeps_bind; [|intros ?]
    | apply keeps_try
    | apply List.Forall_nil
    | apply List.Forall_cons; [intros ?; unfold except; simpl|]
    | apply keeps_if
    | apply keeps_call | apply keeps_read | apply keeps_print
    | apply keeps_info | apply keeps_warning | apply keeps_error
    | apply keeps_ret | apply keeps_pass | apply keeps_return | apply keeps_raise ].

Section OperationsFrame.
Context {St : Type} {sdk : SDK St}.
Variable self : GCSClient.

Lemma create_bucket_keeps b w :
  same_loggers (logging w) (logging (snd (create_bucket self b w))).
Proof. apply keeps_def. unfold create_bucket_try. keeps. Qed.

Lemma list_buckets_keeps w :
  same_loggers (logging w) (logging (snd (list_buckets self w))).
Proof. apply keeps_def. unfold list_buckets_try. keeps. Qed.

Lemma bucket_exists_keeps b w :
  same_loggers (logging w) (logging (snd (bucket_exists self b w))).
Proof. apply keeps_def. unfold bucket_exists_try. keeps. Qed.

Lemma list_files_keeps b p w :
  same_loggers (logging w) (logging (snd (list_files self b p w))).
Proof. apply keeps_def. unfold list_files_try. keeps. Qed.

Lemma upload_file_keeps b src dst w :
  same_loggers (logging w) (logging (snd (upload_file self b src dst w))).
Proof. apply keeps_def. unfold upload_file_try. keeps. Qed.

Lemma download_file_keeps b src dst w :
  same_loggers (logging w) (logging (snd (download_file self b src dst w))).
Proof. apply keeps_def. unfold download_file_try. keeps. Qed.

Lemma get_file_metadata_keeps b n w :
  same_loggers (logging w) (logging (snd (get_file_metadata self b n w))).
Proof. apply keeps_def. unfold get_file_metadata_try. keeps. Qed.

Lemma delete_file_keeps b n w :
  same_loggers (logging w) (logging (snd (delete_file self b n w))).
Proof. apply keeps_def. unfold delete_file_try. keeps. Qed.

Lemma delete_bucket_keeps b w :
  same_loggers (logging w) (logging (snd (delete_bucket self b w))).
Proof. apply keeps_def. unfold delete_bucket_try. keeps. Qed.

End OperationsFrame.

(** ** Construction *)

Lemma the_logger_getLogger name s :
  Logging.the_logger (Logging.getLogger name s) name = Logging.the_logger s name.
Proof.
  unfold Logging.getLogger, Logging.the_logger.
  destruct (Logging.loggerDict s !! name) eqn:E; simpl; [by rewrite E |].
  by rewrite lookup_insert_eq.
Qed.

Lemma the_logger_update name f s :
  Logging.the_logger (Logging.update name f s) name = f (Logging.the_logger s name).
Proof. unfold Logging.update, Logging.the_logger at 1. simpl. by rewrite lookup_insert_eq. Qed.

Lemma the_logger_configure name lvl s :
  Logging.the_logger (configure name lvl s) name =
    Logging.mkLogger lvl
      match Logging.handlers (Logging.the_logger s name) with
      | [] => [Logging.StreamHandler log_format]
      | h :: hs => h :: hs
      end.
Proof.
  unfold configure, Logging.setLevel, Logging.addHandler.
  rewrite !the_logger_update, the_logger_getLogger. simpl.
  destruct (Logging.handlers (Logging.the_logger s name)) eqn:E.
  - by rewrite !the_logger_update, the_logger_getLogger, E.
  - by rewrite the_logger_update, the_logger_getLogger, E.
Qed.

Lemma effective_level_set s name lvl :
  Logging.level (Logging.the_logger s name) = lvl -> lvl <> Logging.NOTSET ->
  Logging.getEffectiveLevel s name = lvl.
Proof.
  intros Hl Hne. unfold Logging.getEffectiveLevel, Logging.chain. simpl.
  rewrite Hl. by destruct (Z.eqb_spec lvl Logging.NOTSET).
Qed.

Section Construction.
Context {St : Type} {sdk : SDK St}.
Variable module_name : string.

Lemma init_logger_run lvl (w : world St) :
  init_logger module_name lvl w =
    (Normal (logger_name module_name),
     mkWorld (configure (logger_name module_name) lvl (logging w))
       (stdout w) (external w)).
Proof.
  unfold init_logger, configure, bind, with_logging, read_logging, pass, ret.
  simpl.
  by destruct (Logging.handlers
                 (Logging.the_logger
                    (Logging.setLevel _ lvl (Logging.getLogger _ (logging w))) _)).
Qed.

(** After the constructor, succeeded or not, the loggers are those its
    set-up left. *)
Lemma init_loggers lvl (w : world St) :
  same_loggers (configure (logger_name module_name) lvl (logging w))
    (logging (snd (init module_name lvl w))).
Proof.
  pose proof (keeps_def
    (client <- try_ (init_try (logger_name module_name))
       [except Exn.Exception (fun e =>
          logger_error (logger_name module_name)
            ("Failed to initialize GCS client: " +:+ Exn.str e) ;;
          raise e)] ;;
     ret (mkGCSClient (logger_name module_name) client))) as Hk.
  unfold init, def, bind at 1. rewrite init_logger_run.
  refine (Hk _ (mkWorld _ _ _)).
  keeps.
Qed.

(** The [try] block of the constructor has no [return]. *)
Lemma init_try_no_return lg (w w' : world St) r :
  init_try lg w <> (Returned r, w').
Proof.
  unfold init_try, bind, call, read, logger_info, with_logging, ret. simpl.
  destruct (load_dotenv (external w)) as [[b|e] s1]; simpl; [|done].
  destruct (from_service_account_file _ s1) as [[c|e] s2]; simpl; [|done].
  by destruct (storage_Client c s2) as [[cl|e] s3].
Qed.

(** Every instance holds the logger of the one name. *)
Lemma init_logger_name lvl (w w' : world St) i :
  init module_name lvl w = (Ok i, w') -> logger i = logger_name module_name.
Proof.
  unfold init, def, bind at 1. rewrite init_logger_run.
  unfold bind, try_, ret.
  destruct (init_try _ _) as [[c|r|e] w1] eqn:E; simpl.
  - by intros [= <- _].
  - by apply init_try_no_return in E.
  - unfold except; simpl. destruct (Exn.isinstance e Exn.Exception); simpl;
      discriminate.
Qed.

(** C2. When the [try] block of the constructor (loading the environment
    and the credentials, building the service handle) raises an error,
    the constructor logs it at error level and raises that same error:
    no sentinel is returned. *)
Theorem construction_failure_propagates (log_level : Z) (w w2 : world St) (e : exn) :
  init_try (logger_name module_name)
    (snd (init_logger module_name log_level w)) = (Raised e, w2) ->
  Exn.isinstance e Exn.Exception = true ->
  init module_name log_level w =
    (Err e,
     logged (logger_name module_name) Logging.ERROR
       ("Failed to initialize GCS client: " +:+ Exn.str e) w2).
Proof.
  intros H He. rewrite init_logger_run in H. simpl in H.
  unfold init, def, bind at 1 2. rewrite init_logger_run.
  rewrite (try_raised _ _ _ _ _ H). unfold except. simpl. rewrite He.
  reflexivity.
Qed.

(** The three calls of the [try] block: each failure is a failure of the
    block. *)
Lemma init_try_raises lg (w : world St) (e : exn) :
  let after s := mkWorld (logging w) (stdout w) s in
  (forall s1, load_dotenv (external w) = (Err e, s1) ->
     init_try lg w = (Raised e, after s1)) /\
  (forall b s1 s2, load_dotenv (external w) = (Ok b, s1) ->
     from_service_account_file
       (os_environ_get "GOOGLE_APPLICATION_CREDENTIALS" s1) s1 = (Err e, s2) ->
     init_try lg w = (Raised e, after s2)) /\
  (forall b s1 c s2 s3, load_dotenv (external w) = (Ok b, s1) ->
     from_service_account_file
       (os_environ_get "GOOGLE_APPLICATION_CREDENTIALS" s1) s1 = (Ok c, s2) ->
     storage_Client c s2 = (Err e, s3) ->
     init_try lg w = (Raised e, after s3)).
Proof.
  simpl. repeat split; intros; unfold init_try, bind, call, read; simpl;
    repeat match goal with H : _ = (_, _) |- _ => rewrite H; clear H; simpl end;
    reflexivity.
Qed.

Lemma attached_run_call (c : api_call) (w : world St) :
  attached (logger_name module_name) (run_call module_name c w) =
    if is_init c
    then match attached (logger_name module_name) w with
         | [] => [Logging.StreamHandler log_format]
         | h :: hs => h :: hs
         end
    else attached (logger_name module_name) w.
Proof.
  unfold attached. destruct c; simpl.
  - by rewrite (same_loggers_the_logger _ _ _ (init_loggers log_level w)),
      the_logger_configure.
  - f_equal. apply same_loggers_the_logger, create_bucket_keeps.
  - f_equal. apply same_loggers_the_logger, list_buckets_keeps.
  - f_equal. apply same_loggers_the_logger, bucket_exists_keeps.
  - f_equal. apply same_loggers_the_logger, list_files_keeps.
  - f_equal. apply same_loggers_the_logger, upload_file_keeps.
  - f_equal. apply same_loggers_the_logger, download_file_keeps.
  - f_equal. apply same_loggers_the_logger, get_file_metadata_keeps.
  - f_equal. apply same_loggers_the_logger, delete_file_keeps.
  - f_equal. apply same_loggers_the_logger, delete_bucket_keeps.
Qed.

(** C9. Whatever the uses of the class in a process (constructions, any
    number of them, and operations in between), the constructor attaches
    a handler to the logger of the class only when that logger has none:
    a logger that had handlers keeps exactly those, and a logger that had
    none has, from the first construction on, the one handler with the
    timestamped, leveled format. *)
Theorem handler_attached_once (cs : list api_call) (w : world St) :
  attached (logger_name module_name) (run_calls module_name cs w) =
    match attached (logger_name module_name) w with
    | [] => if existsb is_init cs then [Logging.StreamHandler log_format] else []
    | h :: hs => h :: hs
    end.
Proof.
  revert w. induction cs as [|c cs IH]; intros w; simpl.
  - by destruct (attached _ w).
  - unfold run_calls in *. simpl. rewrite IH, attached_run_call.
    destruct (is_init c); simpl; [|done].
    by destruct (attached _ w).
Qed.

(** C10, as the code has it.  An instance holds its logger under the one
    name of the class, and the constructor sets the level of that shared
    logger, before anything can fail.  So after a later construction with
    [l2], in whatever world [w] it happens and whether or not it succeeds,
    the logger an earlier instance [i1] holds has level [l2] where it had
    [l1].  When [l2] is an actual level, that is the effective level.
    When [l2] is NOTSET, the effective level is the one inherited from the
    ancestors of the logger. *)
Theorem logger_level_is_shared (l1 l2 : Z) (w0 w1 w : world St) (i1 : GCSClient) :
  init module_name l1 w0 = (Ok i1, w1) ->
  let w2 := snd (init module_name l2 w) in
  (forall i2, fst (init module_name l2 w) = Ok i2 -> logger i2 = logger i1) /\
  Logging.level (Logging.the_logger (logging w1) (logger i1)) = l1 /\
  Logging.level (Logging.the_logger (logging w2) (logger i1)) = l2 /\
  (l2 <> Logging.NOTSET ->
   Logging.getEffectiveLevel (logging w2) (logger i1) = l2) /\
  (l2 = Logging.NOTSET ->
   Logging.getEffectiveLevel (logging w2) (logger i1) =
     Logging.first_set_level (tail (Logging.chain (logging w2) (logger i1)))).
Proof.
  intros H1. simpl.
  pose proof (init_logger_name _ _ _ _ H1) as Hn. rewrite Hn.
  assert (Hlevel : forall l v,
    Logging.level (Logging.the_logger (logging (snd (init module_name l v)))
                     (logger_name module_name)) = l).
  { intros l v.
    by rewrite (same_loggers_the_logger _ _ _ (init_loggers l v)),
      the_logger_configure. }
  repeat apply conj.
  - intros i2 H2. destruct (init module_name l2 w) as [r2 w2] eqn:E.
    simpl in H2. subst r2. by apply init_logger_name in E.
  - specialize (Hlevel l1 w0). by rewrite H1 in Hlevel.
  - apply Hlevel.
  - intros Hne. by apply effective_level_set.
  - intros ->. unfold Logging.getEffectiveLevel, Logging.chain. simpl.
    by rewrite Hlevel.
Qed.

End Construction.

(** ** The client on the storage service *)

Section OnService.
Context {codecs : Service.Codecs}.
#[local] Existing Instance Service.sdk.

(** The state a remote call that gets through starts from. *)
Lemma remote_run {A} (op : Service.state -> result A * Service.state) s :
  Service.remote op s =
    match Service.failures s with
    | Some f :: rest => (Err (Service.error_of f), Service.set_failures rest s)
    | None :: rest => op (Service.set_failures rest s)
    | [] => op s
    end.
Proof. reflexivity. Qed.

Lemma error_of_is_exception f :
  Exn.isinstance (Service.error_of f) Exn.Exception = true.
Proof. by destruct f as [[] d]. Qed.

Lemma error_of_not_not_found f :
  Exn.isinstance (Service.error_of f) Exn.NotFound = false.
Proof. by destruct f as [[] d]. Qed.

Lemma not_found_not_found what :
  Exn.isinstance (Service.not_found what) Exn.NotFound = true.
Proof. reflexivity. Qed.

Variable self : GCSClient.

(** The result of [bucket_exists], call by call. *)
Lemma bucket_exists_run (b : string) (w : world Service.state) :
  fst (bucket_exists self b w) =
    match Service.failures (external w) with
    | Some _ :: _ => Ok false
    | _ => Ok (bool_decide (is_Some (Service.buckets (external w) !! b)))
    end.
Proof.
  unfold bucket_exists, def, try_, bucket_exists_try, bind, call. simpl.
  unfold Service.Bucket_exists. rewrite remote_run.
  destruct (Service.failures (external w)) as [|[f|] rest]; simpl; try done.
  rewrite error_of_is_exception. simpl.
  by destruct (str_in _ _ || str_in _ _).
Qed.

Lemma bucket_exists_try_raises (b : string) (w : world Service.state) f rest :
  Service.failures (external w) = Some f :: rest ->
  exists w', bucket_exists_try self b w = (Raised (Service.error_of f), w').
Proof.
  intros Hf. unfold bucket_exists_try, bind, call. simpl.
  unfold Service.Bucket_exists. rewrite remote_run, Hf. simpl. eauto.
Qed.

(** A successful [create_bucket] is a successful call. *)
Lemma create_bucket_true (b : string) (w w1 : world Service.state) :
  create_bucket self b w = (Ok true, w1) ->
  exists bk,
    Service.Client_create_bucket (client self) b (external w) = (Ok bk, external w1).
Proof.
  unfold create_bucket, def, try_, create_bucket_try, bind, call. simpl.
  destruct (Service.Client_create_bucket _ _ _) as [[bk|e] s1]; simpl.
  - intros [= <-]. eauto.
  - destruct (Exn.isinstance e Exn.Exception); simpl; discriminate.
Qed.

Lemma Client_create_bucket_ok c (b : string) s bk s1 :
  Service.Client_create_bucket c b s = (Ok bk, s1) ->
  Service.buckets s1 !! b = Some ∅.
Proof.
  unfold Service.Client_create_bucket. rewrite remote_run.
  destruct (Service.failures s) as [|[f|] rest]; simpl; try discriminate.
  - destruct (Service.buckets s !! b); [discriminate |].
    intros [= _ <-]. simpl. apply lookup_insert_eq.
  - destruct (Service.buckets s !! b); [discriminate |].
    intros [= _ <-]. simpl. apply lookup_insert_eq.
Qed.

(** C5, as the code has it.  In a state of the service where the bucket
    does not exist, [bucket_exists] returns [False]; in the state a
    [create_bucket] that returned [True] leaves, it returns [True] provided
    that the existence check itself does not raise (when it raises, the
    result is [False]: that is the failure containment). *)
Theorem bucket_exists_after_create (B : string) (w : world Service.state) :
  (Service.buckets (external w) !! B = None ->
     fst (bucket_exists self B w) = Ok false) /\
  (forall w0, create_bucket self B w0 = (Ok true, w) ->
     (forall e w', bucket_exists_try self B w <> (Raised e, w')) ->
     fst (bucket_exists self B w) = Ok true).
Proof.
  split.
  - intros Hno. rewrite bucket_exists_run, Hno.
    by destruct (Service.failures (external w)) as [|[f|] rest].
  - intros w0 Hc Hok. apply create_bucket_true in Hc as [bk Hc].
    apply Client_create_bucket_ok in Hc.
    rewrite bucket_exists_run, Hc.
    destruct (Service.failures (external w)) as [|[f|] rest] eqn:Hf; try done.
    destruct (bucket_exists_try_raises B w f rest Hf) as [w' Hr].
    by apply Hok in Hr.
Qed.

(** A successful [upload_file] read the local file and stored its bytes. *)
Lemma upload_file_true (b src dst : string) (w w1 : world Service.state) :
  upload_file self b src dst w = (Ok true, w1) ->
  exists bytes objs o,
    Service.files (external w) !! src = Some bytes /\
    Service.files (external w1) = Service.files (external w) /\
    Service.buckets (external w1) !! b = Some objs /\
    objs !! dst = Some o /\
    Service.data o = bytes.
Proof.
  unfold upload_file, def, try_, upload_file_try, bind, call, print. simpl.
  unfold Service.Blob_upload_from_filename. simpl.
  destruct (Service.files (external w) !! src) as [bytes|] eqn:Hsrc;
    [|simpl; discriminate].
  rewrite remote_run.
  destruct (Service.failures (external w)) as [|[f|] rest]; simpl;
    try (rewrite error_of_is_exception; simpl; discriminate);
    (destruct (Service.buckets (external w) !! b) as [objs|] eqn:Hb; simpl;
     [|discriminate]);
    unfold Service.sys_stdout_write; simpl;
    (destruct (Service.stdout_open (external w)); simpl; [|discriminate]);
    intros [= <-]; simpl;
    eexists bytes, _, _; rewrite lookup_insert_eq, lookup_insert_eq; done.
Qed.

(** Listing reads the service: it changes neither buckets nor files. *)
Lemma list_files_same_store (b p : string) (w : world Service.state) :
  Service.buckets (external (snd (list_files self b p w))) =
    Service.buckets (external w) /\
  Service.files (external (snd (list_files self b p w))) =
    Service.files (external w).
Proof.
  unfold list_files, def, try_, list_files_try, bind, call, logger_info,
    with_logging, return_. simpl.
  unfold Service.Bucket_list_blobs. rewrite remote_run. simpl.
  destruct (Service.failures (external w)) as [|[f|] rest]; simpl;
    try (rewrite error_of_is_exception; simpl; done);
    destruct (Service.buckets (external w) !! b) as [objs|]; simpl; done.
Qed.

(** The result of [list_files] on a bucket that exists. *)
Lemma list_files_run (b p : string) (w : world Service.state) objs :
  Service.buckets (external w) !! b = Some objs ->
  fst (list_files self b p w) =
    match Service.failures (external w) with
    | Some _ :: _ => Ok []
    | _ =>
        Ok (map fst (List.filter (fun kv => startswith (fst kv) p)
                       (map_to_list objs)))
    end.
Proof.
  intros Hb.
  unfold list_files, def, try_, list_files_try, bind, call, logger_info,
    with_logging, return_. simpl.
  unfold Service.Bucket_list_blobs. rewrite remote_run. simpl.
  destruct (Service.failures (external w)) as [|[f|] rest]; simpl;
    try (rewrite error_of_is_exception; simpl; done);
    rewrite Hb; simpl; by rewrite map_map.
Qed.

Lemma list_files_try_raises (b p : string) (w : world Service.state) f rest :
  Service.failures (external w) = Some f :: rest ->
  exists w', list_files_try self b p w = (Raised (Service.error_of f), w').
Proof.
  intros Hf. unfold list_files_try, bind, call. simpl.
  unfold Service.Bucket_list_blobs. rewrite remote_run, Hf. simpl. eauto.
Qed.

(** A successful [download_file] wrote the bytes of the object. *)
Lemma download_file_true (b n out : string) (w w2 : world Service.state) :
  download_file self b n out w = (Ok true, w2) ->
  exists objs o,
    Service.buckets (external w) !! b = Some objs /\
    objs !! n = Some o /\
    Service.files (external w2) = <[out := Service.data o]> (Service.files (external w)).
Proof.
  unfold download_file, def, try_, download_file_try, bind, call, print. simpl.
  unfold Service.Blob_download_to_filename, Service.lookup_object. simpl.
  rewrite remote_run.
  destruct (Service.failures (external w)) as [|[f|] rest]; simpl;
    try (rewrite error_of_is_exception; simpl; discriminate);
    (destruct (Service.buckets (external w) !! b) as [objs|] eqn:Hb; simpl;
     [|discriminate]);
    (destruct (objs !! n) as [o|] eqn:Ho; simpl; [|discriminate]);
    unfold Service.sys_stdout_write; simpl;
    (destruct (Service.stdout_open (external w)); simpl; [|discriminate]);
    intros [= <-]; simpl; eauto.
Qed.

Lemma startswith_empty (s : string) : startswith s EmptyString = true.
Proof. by destruct s. Qed.

(** C6, as the code has it.  After an [upload_file] that returned [True],
    [list_files] on the bucket (no prefix) includes the object name
    provided that the listing itself does not raise (when it raises, the
    result is the empty list); and a [download_file] that returns [True],
    right after the upload or after that listing, leaves at the
    destination the bytes the local source had, and still has. *)
Theorem upload_download_round_trip (bucket local_path obj : string)
    (w0 w1 : world Service.state) :
  upload_file self bucket local_path obj w0 = (Ok true, w1) ->
  ((forall e w', list_files_try self bucket EmptyString w1 <> (Raised e, w')) ->
     exists names,
       fst (list_files self bucket EmptyString w1) = Ok names /\ obj ∈ names) /\
  (forall w out_path w2,
     w = w1 \/ w = snd (list_files self bucket EmptyString w1) ->
     download_file self bucket obj out_path w = (Ok true, w2) ->
     is_Some (Service.files (external w0) !! local_path) /\
     Service.files (external w2) !! out_path =
       Service.files (external w0) !! local_path /\
     Service.files (external w2) !! local_path =
       Service.files (external w0) !! local_path).
Proof.
  intros Hup.
  apply upload_file_true in Hup as (bytes & objs & o & Hsrc & Hfiles & Hb & Ho & Hd).
  split.
  - intros Hok. rewrite (list_files_run _ _ _ _ Hb).
    destruct (Service.failures (external w1)) as [|[f|] rest] eqn:Hf.
    2: { destruct (list_files_try_raises bucket EmptyString w1 f rest Hf) as [w' Hr].
         by apply Hok in Hr. }
    all: eexists; split; [reflexivity |];
      apply list_elem_of_In, in_map_iff; exists (obj, o); split; [done |];
      apply filter_In; split; [|apply startswith_empty];
      by apply list_elem_of_In, elem_of_map_to_list.
  - intros w out w2 Hw Hdown.
    apply download_file_true in Hdown as (objs' & o' & Hb' & Ho' & Hout).
    assert (Hsame : Service.buckets (external w) = Service.buckets (external w1) /\
                    Service.files (external w) = Service.files (external w1)).
    { destruct Hw as [-> | ->]; [done | apply list_files_same_store]. }
    destruct Hsame as [Hsb Hsf].
    rewrite Hsb, Hb in Hb'. injection Hb' as <-.
    rewrite Ho in Ho'. injection Ho' as <-.
    rewrite Hout, Hsf, Hfiles, Hd, Hsrc.
    split; [by eexists |]. split; [apply lookup_insert_eq |].
    destruct (decide (out = local_path)) as [-> | Hne].
    + apply lookup_insert_eq.
    + by rewrite lookup_insert_ne.
Qed.

(** The dictionary [get_file_metadata] builds from an object. *)
Lemma get_file_metadata_run (b n : string) (w : world Service.state) objs o :
  Service.buckets (external w) !! b = Some objs ->
  objs !! n = Some o ->
  fst (get_file_metadata self b n w) =
    match Service.failures (external w) with
    | Some _ :: _ => Ok None
    | _ =>
        Ok (Some (list_to_map
          [("name", PyStr n);
           ("size", PyInt (Z.of_nat (length (Service.data o))));
           ("content_type", py_of PyStr (Service.ctype o));
           ("created", PyDatetime (Service.created o));
           ("updated", PyDatetime (Service.modified o));
           ("md5_hash", PyStr (Service.md5_b64 (Service.data o)))]))
    end.
Proof.
  intros Hb Ho.
  unfold get_file_metadata, def, try_, get_file_metadata_try, bind, call,
    return_. simpl.
  unfold Service.Blob_reload, Service.lookup_object. rewrite remote_run. simpl.
  destruct (Service.failures (external w)) as [|[f|] rest]; simpl;
    try (rewrite error_of_not_not_found, error_of_is_exception; simpl; done);
    rewrite Hb; simpl; rewrite Ho; simpl; done.
Qed.

Lemma get_file_metadata_try_raises (b n : string) (w : world Service.state) f rest :
  Service.failures (external w) = Some f :: rest ->
  exists w', get_file_metadata_try self b n w = (Raised (Service.error_of f), w').
Proof.
  intros Hf. unfold get_file_metadata_try, bind, call. simpl.
  unfold Service.Blob_reload. rewrite remote_run, Hf. simpl. eauto.
Qed.

(** Without the object, whatever else happens, the result is [None]. *)
Lemma get_file_metadata_absent (b n : string) (w : world Service.state) :
  (forall objs, Service.buckets (external w) !! b = Some objs -> objs !! n = None) ->
  fst (get_file_metadata self b n w) = Ok None.
Proof.
  intros Hno.
  unfold get_file_metadata, def, try_, get_file_metadata_try, bind, call,
    return_. simpl.
  unfold Service.Blob_reload, Service.lookup_object. rewrite remote_run. simpl.
  destruct (Service.failures (external w)) as [|[f|] rest]; simpl;
    try (rewrite error_of_not_not_found, error_of_is_exception; simpl; done);
    (destruct (Service.buckets (external w) !! b) as [objs|] eqn:Hb; simpl;
     [rewrite (Hno objs eq_refl); simpl |]); done.
Qed.

(** A successful [delete_file] removed the object. *)
Lemma delete_file_true (b n : string) (w w1 : world Service.state) :
  delete_file self b n w = (Ok true, w1) ->
  forall objs, Service.buckets (external w1) !! b = Some objs -> objs !! n = None.
Proof.
  unfold delete_file, def, try_, delete_file_try, bind, call. simpl.
  unfold Service.Blob_delete. simpl. rewrite remote_run.
  destruct (Service.failures (external w)) as [|[f|] rest]; simpl;
    try (rewrite error_of_is_exception; simpl; discriminate);
    (destruct (Service.buckets (external w) !! b) as [objs|] eqn:Hb; simpl;
     [|discriminate]);
    (destruct (objs !! n) as [o|] eqn:Ho; simpl; [|discriminate]);
    intros [= <-] objs'; simpl; rewrite lookup_insert_eq;
    intros [= <-]; apply lookup_delete_eq.
Qed.

(** C7, as the code has it.  After an [upload_file] that returned [True],
    [get_file_metadata] returns, provided that the metadata request itself
    does not raise (when it raises, the result is [None]), a dictionary
    with exactly the keys name, size, content_type, created, updated and
    md5_hash, whose name is the object name, whose md5_hash is not empty
    and whose size is the length of the local file; after a [delete_file]
    that returned [True], [get_file_metadata] returns [None]. *)
Theorem metadata_after_upload_and_delete (bucket obj : string)
    (w : world Service.state) :
  (forall local_path w0,
     upload_file self bucket local_path obj w0 = (Ok true, w) ->
     (forall e w', get_file_metadata_try self bucket obj w <> (Raised e, w')) ->
     exists md : metadata_dict,
       fst (get_file_metadata self bucket obj w) = Ok (Some md) /\
       dom md = ({[ "name"; "size"; "content_type"; "created"; "updated";
                    "md5_hash" ]} : gset string) /\
       md !! "name" = Some (PyStr obj) /\
       (exists h, md !! "md5_hash" = Some (PyStr h) /\ h <> EmptyString) /\
       (exists bytes, Service.files (external w0) !! local_path = Some bytes /\
          md !! "size" = Some (PyInt (Z.of_nat (length bytes))))) /\
  (forall w0,
     delete_file self bucket obj w0 = (Ok true, w) ->
     fst (get_file_metadata self bucket obj w) = Ok None).
Proof.
  split.
  - intros local w0 Hup Hok.
    apply upload_file_true in Hup as (bytes & objs & o & Hsrc & _ & Hb & Ho & Hd).
    rewrite (get_file_metadata_run _ _ _ _ _ Hb Ho).
    destruct (Service.failures (external w)) as [|[f|] rest] eqn:Hf.
    2: { destruct (get_file_metadata_try_raises bucket obj w f rest Hf) as [w' Hr].
         by apply Hok in Hr. }
    all: eexists; split; [reflexivity |]; simpl; repeat split.
    all: try (rewrite !dom_insert_L, dom_empty_L; set_solver).
    all: try (eexists; split; [by simplify_map_eq | apply Service.md5_b64_nonempty]).
    all: try (exists bytes; split; [done | rewrite Hd; by simplify_map_eq]).
  - intros w0 Hdel. apply get_file_metadata_absent.
    exact (delete_file_true _ _ _ _ Hdel).
Qed.

End OnService.

(** ** Runs on concrete inputs *)

Section Concrete.
#[local] Existing Instance Demo.codecs.
#[local] Existing Instance Service.sdk.

Example started_ok :
  fst (init "gcs_client" Logging.INFO (Demo.boot [])) = Ok Demo.me.
Proof. vm_compute. reflexivity. Qed.

(** The scenario of the spec: create, upload, list, metadata, delete. *)
Example scenario :
  fst (list_files Demo.me "t1" EmptyString (Demo.with_object [])) = Ok ["README"] /\
  (exists md : metadata_dict,
     fst (get_file_metadata Demo.me "t1" "README" (Demo.with_object [])) = Ok (Some md) /\
     md !! "size" = Some (PyInt 4)) /\
  fst (delete_file Demo.me "t1" "README" (Demo.with_object [])) = Ok true /\
  fst (delete_bucket Demo.me "t1"
         (snd (delete_file Demo.me "t1" "README" (Demo.with_object [])))) = Ok true /\
  fst (delete_bucket Demo.me "t1" (Demo.with_object [])) = Ok false.
Proof.
  repeat split; try (vm_compute; reflexivity).
  eexists. split; vm_compute; reflexivity.
Qed.

(** Every operation, with the service unavailable at its remote call. *)
Lemma failure_returns_sentinel_witness :
  fst (create_bucket Demo.me "t1" (Demo.started [Some Demo.unavailable])) = Ok false /\
  fst (list_buckets Demo.me (Demo.started [Some Demo.unavailable])) = Ok [] /\
  fst (bucket_exists Demo.me "t1" (Demo.started [Some Demo.unavailable])) = Ok false /\
  fst (list_files Demo.me "t1" EmptyString (Demo.started [Some Demo.unavailable])) = Ok [] /\
  fst (upload_file Demo.me "t1" "README" "README"
         (Demo.started [Some Demo.unavailable])) = Ok false /\
  fst (download_file Demo.me "t1" "README" "out"
         (Demo.started [Some Demo.unavailable])) = Ok false /\
  fst (get_file_metadata Demo.me "t1" "README"
         (Demo.started [Some Demo.unavailable])) = Ok None /\
  fst (delete_file Demo.me "t1" "README" (Demo.started [Some Demo.unavailable])) = Ok false /\
  fst (delete_bucket Demo.me "t1" (Demo.started [Some Demo.unavailable])) = Ok false.
Proof.
  destruct (failure_returns_sentinel Demo.me
              (Demo.started [Some Demo.unavailable])
              (Demo.next_call_done (Demo.started [Some Demo.unavailable]))
              (Service.error_of Demo.unavailable) eq_refl)
    as (H1 & H2 & H3 & H4 & H5 & H6 & H7 & H8 & H9).
  repeat apply conj.
  - apply H1. vm_compute. reflexivity.
  - apply H2. vm_compute. reflexivity.
  - apply H3. vm_compute. reflexivity.
  - apply H4. vm_compute. reflexivity.
  - apply H5. vm_compute. reflexivity.
  - apply H6. vm_compute. reflexivity.
  - apply H7. vm_compute. reflexivity.
  - apply H8. vm_compute. reflexivity.
  - apply H9. vm_compute. reflexivity.
Defined.

(** Construction with no credential path in the environment. *)
Lemma construction_failure_propagates_witness :
  init "gcs_client" Logging.INFO Demo.boot_without_credentials =
    (Err (Exn.make Exn.TypeError
            "expected str, bytes or os.PathLike object, not NoneType"),
     logged "gcs_client.GCSClient" Logging.ERROR
       "Failed to initialize GCS client: expected str, bytes or os.PathLike object, not NoneType"
       (snd (init_logger "gcs_client" Logging.INFO Demo.boot_without_credentials))).
Proof.
  apply (construction_failure_propagates "gcs_client" Logging.INFO
           Demo.boot_without_credentials).
  - vm_compute. reflexivity.
  - vm_compute. reflexivity.
Defined.

(** [bucket_exists] with a 403, and with a 503, from the service. *)
Lemma bucket_exists_failure_witness :
  Logging.calls (logging (snd (bucket_exists Demo.me "t1" (Demo.started [Some Demo.denied])))) =
    (Logging.calls (logging (Demo.started [])) ++
     [Logging.mkRecord "gcs_client.GCSClient" Logging.WARNING
        "Permission denied checking bucket 't1'. Assuming it doesn't exist or no access."])%list /\
  Logging.calls (logging (snd (bucket_exists Demo.me "t1" (Demo.started [Some Demo.unavailable])))) =
    (Logging.calls (logging (Demo.started [])) ++
     [Logging.mkRecord "gcs_client.GCSClient" Logging.ERROR
        "Failed to check if bucket 't1' exists: 503 Service Unavailable"])%list.
Proof.
  split.
  - destruct (bucket_exists_failure Demo.me "t1"
                (Demo.started [Some Demo.denied])
                (Demo.next_call_done (Demo.started [Some Demo.denied]))
                (Service.error_of Demo.denied)) as [Hwarn _].
    + vm_compute. reflexivity.
    + vm_compute. reflexivity.
    + rewrite Hwarn; [vm_compute; reflexivity |].
      left. exists EmptyString, " caller does not have storage.buckets.get access".
      vm_compute. reflexivity.
  - destruct (bucket_exists_failure Demo.me "t1"
                (Demo.started [Some Demo.unavailable])
                (Demo.next_call_done (Demo.started [Some Demo.unavailable]))
                (Service.error_of Demo.unavailable)) as [_ Herr].
    + vm_compute. reflexivity.
    + vm_compute. reflexivity.
    + rewrite Herr; [vm_compute; reflexivity |].
      unfold contains. rewrite <- !str_in_spec. vm_compute.
      intros [H | H]; discriminate H.
Defined.

(** [get_file_metadata] on an object that does not exist, and with the
    service unavailable. *)
Lemma get_file_metadata_failure_witness :
  get_file_metadata Demo.me "t1" "nope" (Demo.with_bucket []) =
    (Ok None,
     logged "gcs_client.GCSClient" Logging.WARNING
       "File 'nope' not found in bucket 't1'" (Demo.with_bucket [])) /\
  get_file_metadata Demo.me "t1" "nope" (Demo.with_bucket [None; Some Demo.unavailable]) =
    (Ok None,
     logged "gcs_client.GCSClient" Logging.ERROR
       "Failed to get metadata for file 'nope': 503 Service Unavailable"
       (Demo.with_bucket [])).
Proof.
  split.
  - destruct (get_file_metadata_failure Demo.me "t1" "nope"
                (Demo.with_bucket []) (Demo.with_bucket [])
                (Service.not_found "object nope")) as [Hwarn _].
    + vm_compute. reflexivity.
    + vm_compute. reflexivity.
    + apply Hwarn. vm_compute. reflexivity.
  - destruct (get_file_metadata_failure Demo.me "t1" "nope"
                (Demo.with_bucket [None; Some Demo.unavailable]) (Demo.with_bucket [])
                (Service.error_of Demo.unavailable)) as [_ Herr].
    + vm_compute. reflexivity.
    + vm_compute. reflexivity.
    + apply Herr. vm_compute. reflexivity.
Defined.

(** A not-found error in [get_file_metadata] and in [delete_file]. *)
Lemma not_found_handling_witness :
  contained Demo.me (get_file_metadata Demo.me "t1" "nope" (Demo.with_bucket []))
    None Logging.WARNING (Demo.with_bucket []) /\
  contained Demo.me (delete_file Demo.me "t1" "nope" (Demo.with_bucket []))
    false Logging.ERROR (Demo.with_bucket []).
Proof.
  destruct (not_found_handling Demo.me (Demo.with_bucket []) (Demo.with_bucket [])
              (Service.not_found "object nope") eq_refl)
    as (Hmeta & _ & _ & _ & _ & _ & Hdel & _).
  apply conj.
  - apply Hmeta. vm_compute. reflexivity.
  - apply Hdel. vm_compute. reflexivity.
Defined.

(** C8 as stated fails: [delete_file] on an object that does not exist gets
    a not-found error from the service and logs it at error level; no
    record at warning level is logged. *)
Lemma not_found_logged_as_error_counterexample :
  fst (delete_file_try Demo.me "t1" "nope" (Demo.with_bucket [])) =
    Raised (Exn.make Exn.NotFound "404 object nope does not exist") /\
  delete_file Demo.me "t1" "nope" (Demo.with_bucket []) =
    (Ok false,
     logged "gcs_client.GCSClient" Logging.ERROR
       "Failed to delete blob 'nope': 404 object nope does not exist"
       (Demo.with_bucket [])) /\
  List.filter (fun r => Logging.levelno r =? Logging.WARNING)
    (Logging.calls (logging (snd (delete_file Demo.me "t1" "nope" (Demo.with_bucket [])))))
    = [].
Proof. repeat apply conj; vm_compute; reflexivity. Qed.

(** Create, then check, with nothing failing. *)
Lemma bucket_exists_after_create_witness :
  fst (bucket_exists Demo.me "t1" (Demo.started [])) = Ok false /\
  fst (bucket_exists Demo.me "t1" (Demo.with_bucket [])) = Ok true.
Proof.
  apply conj.
  - apply (bucket_exists_after_create Demo.me "t1" (Demo.started [])).
    vm_compute. reflexivity.
  - apply (proj2 (bucket_exists_after_create Demo.me "t1" (Demo.with_bucket []))
             (Demo.started [])).
    + vm_compute. reflexivity.
    + intros e w' H. vm_compute in H. discriminate H.
Defined.

(** C5 as stated fails: [create_bucket] returns [True], the service is
    unavailable at the existence check that follows, and [bucket_exists]
    returns [False] for the bucket that exists. *)
Lemma bucket_exists_after_create_counterexample :
  create_bucket Demo.me "t1" (Demo.started [None; Some Demo.unavailable]) =
    (Ok true, Demo.with_bucket [None; Some Demo.unavailable]) /\
  is_Some (Service.buckets (external (Demo.with_bucket [None; Some Demo.unavailable]))
             !! "t1") /\
  fst (bucket_exists Demo.me "t1" (Demo.with_bucket [None; Some Demo.unavailable])) =
    Ok false.
Proof.
  repeat apply conj; [vm_compute; reflexivity | | vm_compute; reflexivity].
  exists ∅. vm_compute. reflexivity.
Qed.

(** Upload, list, download, with nothing failing. *)
Lemma upload_download_round_trip_witness :
  (exists names,
     fst (list_files Demo.me "t1" EmptyString (Demo.with_object [])) = Ok names /\
     "README" ∈ names) /\
  Service.files
    (external (snd (download_file Demo.me "t1" "README" "out" (Demo.with_object []))))
    !! "out" = Some Demo.readme.
Proof.
  destruct (upload_download_round_trip Demo.me "t1" "README" "README"
              (Demo.with_bucket []) (Demo.with_object [])) as [Hlist Hdown].
  - vm_compute. reflexivity.
  - apply conj.
    + apply Hlist. intros e w' H. vm_compute in H. discriminate H.
    + destruct (Hdown (Demo.with_object []) "out"
                  (snd (download_file Demo.me "t1" "README" "out" (Demo.with_object []))))
        as (_ & Hout & _).
      * left. reflexivity.
      * vm_compute. reflexivity.
      * rewrite Hout. vm_compute. reflexivity.
Defined.

(** C6 as stated fails: [upload_file] returns [True], the service is
    unavailable at the listing that follows, and [list_files] returns the
    empty list, which does not include the object. *)
Lemma listing_after_upload_counterexample :
  upload_file Demo.me "t1" "README" "README"
      (Demo.with_bucket [None; None; Some Demo.unavailable]) =
    (Ok true, Demo.with_object [None; None; Some Demo.unavailable]) /\
  fst (list_files Demo.me "t1" EmptyString
         (Demo.with_object [None; None; Some Demo.unavailable])) = Ok [].
Proof. apply conj; vm_compute; reflexivity. Qed.

(** Upload then metadata, and delete then metadata, with nothing failing. *)
Lemma metadata_after_upload_and_delete_witness :
  (exists md : metadata_dict,
     fst (get_file_metadata Demo.me "t1" "README" (Demo.with_object [])) = Ok (Some md) /\
     md !! "name" = Some (PyStr "README")) /\
  fst (get_file_metadata Demo.me "t1" "README"
         (snd (delete_file Demo.me "t1" "README" (Demo.with_object [])))) = Ok None.
Proof.
  apply conj.
  - destruct (proj1 (metadata_after_upload_and_delete Demo.me "t1" "README"
                       (Demo.with_object []))
                "README" (Demo.with_bucket [])) as (md & Hmd & _ & Hname & _).
    + vm_compute. reflexivity.
    + intros e w' H. vm_compute in H. discriminate H.
    + exists md. by apply conj.
  - apply (proj2 (metadata_after_upload_and_delete Demo.me "t1" "README"
                    (snd (delete_file Demo.me "t1" "README" (Demo.with_object []))))
             (Demo.with_object [])).
    vm_compute. reflexivity.
Defined.

(** C7 as stated fails: [upload_file] returns [True], the service is
    unavailable at the metadata request that follows, and
    [get_file_metadata] returns [None] for the object that exists. *)
Lemma metadata_after_upload_counterexample :
  upload_file Demo.me "t1" "README" "README"
      (Demo.with_bucket [None; None; Some Demo.unavailable]) =
    (Ok true, Demo.with_object [None; None; Some Demo.unavailable]) /\
  fst (get_file_metadata Demo.me "t1" "README"
         (Demo.with_object [None; None; Some Demo.unavailable])) = Ok None.
Proof. apply conj; vm_compute; reflexivity. Qed.

(** Two constructions, at INFO then at ERROR: the logger of the first
    instance is at ERROR after the second. *)
Lemma logger_level_is_shared_witness :
  Logging.level (Logging.the_logger (logging (Demo.started [])) (logger Demo.me)) =
    Logging.INFO /\
  Logging.getEffectiveLevel
    (logging (snd (init "gcs_client" Logging.ERROR (Demo.started []))))
    (logger Demo.me) = Logging.ERROR.
Proof.
  destruct (logger_level_is_shared "gcs_client" Logging.INFO Logging.ERROR
              (Demo.boot []) (Demo.started []) (Demo.started []) Demo.me)
    as (_ & H1 & _ & H2 & _).
  - vm_compute. reflexivity.
  - apply conj; [exact H1 |]. apply H2. discriminate.
Defined.

(** C10 as stated fails: a second construction with a different
    [log_level], NOTSET after WARNING, leaves the effective level of the
    logger of the first instance where it was, at the WARNING it now
    inherits from the root logger. *)
Lemma effective_level_unchanged_counterexample :
  Logging.WARNING <> Logging.NOTSET /\
  fst (init "gcs_client" Logging.WARNING (Demo.boot [])) = Ok Demo.me /\
  Logging.getEffectiveLevel
    (logging (snd (init "gcs_client" Logging.WARNING (Demo.boot []))))
    (logger Demo.me) = Logging.WARNING /\
  Logging.getEffectiveLevel
    (logging (snd (init "gcs_client" Logging.NOTSET
                     (snd (init "gcs_client" Logging.WARNING (Demo.boot []))))))
    (logger Demo.me) = Logging.WARNING.
Proof. repeat apply conj; [discriminate | vm_compute; reflexivity ..]. Qed.

End Concrete.

(** ** The operations in every state *)

(** Run an operation by the completion of its [try] block [body], then by
    the clause that catches what it raised. *)
Ltac by_try_block body :=
  unfold def, bind, try_, except, logger_error, logger_warning, logger_info,
    with_logging, return_, raise, pass, ret;
  destruct body as [[?|?|?] ?] eqn:?; simpl;
  repeat match goal with
         | |- context [Exn.isinstance ?e ?c] =>
             destruct (Exn.isinstance e c) eqn:?; simpl
         | |- context [str_in ?a ?b || str_in ?c ?d] =>
             destruct (str_in a b || str_in c d) eqn:?; simpl
         end.

(** Run the SDK calls of a block one after the other. *)
Ltac by_calls :=
  unfold bind, call, read, print, pass, ret, return_, logger_info, with_logging;
  simpl;
  repeat match goal with
         | |- context [match ?x with (_, _) => _ end] =>
             destruct x as [[?|?] ?]; simpl
         end.

Section TryBlocks.
Context {St : Type} {sdk : SDK St}.
Variable self : GCSClient.

(** What the [try] blocks leave of the logging state and of the standard
    output.  Only the two listings log, when they return; only the two
    transfers print, when they complete. *)
Lemma create_bucket_try_frame b (w : world St) :
  logging (snd (create_bucket_try self b w)) = logging w /\
  stdout (snd (create_bucket_try self b w)) = stdout w.
Proof. unfold create_bucket_try. by_calls; done. Qed.

Lemma delete_bucket_try_frame b (w : world St) :
  logging (snd (delete_bucket_try self b w)) = logging w /\
  stdout (snd (delete_bucket_try self b w)) = stdout w.
Proof. unfold delete_bucket_try. by_calls; done. Qed.

Lemma delete_file_try_frame b n (w : world St) :
  logging (snd (delete_file_try self b n w)) = logging w /\
  stdout (snd (delete_file_try self b n w)) = stdout w.
Proof. unfold delete_file_try. by_calls; done. Qed.

Lemma bucket_exists_try_frame b (w : world St) :
  logging (snd (bucket_exists_try self b w)) = logging w /\
  stdout (snd (bucket_exists_try self b w)) = stdout w.
Proof. unfold bucket_exists_try. by_calls; done. Qed.

Lemma get_file_metadata_try_frame b n (w : world St) :
  logging (snd (get_file_metadata_try self b n w)) = logging w /\
  stdout (snd (get_file_metadata_try self b n w)) = stdout w.
Proof. unfold get_file_metadata_try. by_calls; done. Qed.

Lemma upload_file_try_frame b src dst (w : world St) :
  logging (snd (upload_file_try self b src dst w)) = logging w /\
  stdout (snd (upload_file_try self b src dst w)) =
    match fst (upload_file_try self b src dst w) with
    | Normal _ =>
        (stdout w ++ ["File " +:+ src +:+ " uploaded to " +:+ dst +:+ "."])%list
    | _ => stdout w
    end /\
  (forall r, fst (upload_file_try self b src dst w) <> Returned r).
Proof. unfold upload_file_try. by_calls; done. Qed.

Lemma download_file_try_frame b src dst (w : world St) :
  logging (snd (download_file_try self b src dst w)) = logging w /\
  stdout (snd (download_file_try self b src dst w)) =
    match fst (download_file_try self b src dst w) with
    | Normal _ =>
        (stdout w ++
         ["Downloaded storage object " +:+ src +:+ " from bucket " +:+ b +:+
          " to local file " +:+ dst +:+ "."])%list
    | _ => stdout w
    end /\
  (forall r, fst (download_file_try self b src dst w) <> Returned r).
Proof. unfold download_file_try. by_calls; done. Qed.

Lemma list_buckets_try_frame (w : world St) :
  stdout (snd (list_buckets_try self w)) = stdout w /\
  logging (snd (list_buckets_try self w)) =
    match fst (list_buckets_try self w) with
    | Returned names =>
        Logging.log (logger self) Logging.INFO
          ("Found " +:+ str_of_nat (length names) +:+ " buckets") (logging w)
    | _ => logging w
    end /\
  (forall a, fst (list_buckets_try self w) <> Normal a).
Proof. unfold list_buckets_try. by_calls; done. Qed.

Lemma list_files_try_frame b p (w : world St) :
  stdout (snd (list_files_try self b p w)) = stdout w /\
  logging (snd (list_files_try self b p w)) =
    match fst (list_files_try self b p w) with
    | Returned names =>
        Logging.log (logger self) Logging.INFO
          ("Found " +:+ str_of_nat (length names) +:+ " files in bucket '" +:+
           b +:+ "'") (logging w)
    | _ => logging w
    end /\
  (forall a, fst (list_files_try self b p w) <> Normal a).
Proof. unfold list_files_try. by_calls; done. Qed.

(** The blocks of the boolean operations have no [return]. *)
Lemma boolean_try_no_return b n src dst (w : world St) r :
  fst (create_bucket_try self b w) <> Returned r /\
  fst (delete_bucket_try self b w) <> Returned r /\
  fst (delete_file_try self b n w) <> Returned r /\
  fst (upload_file_try self b src dst w) <> Returned r /\
  fst (download_file_try self b src dst w) <> Returned r.
Proof.
  unfold create_bucket_try, delete_bucket_try, delete_file_try, upload_file_try,
    download_file_try.
  repeat apply conj; by_calls; done.
Qed.

End TryBlocks.

Section EveryState.
Context {St : Type} {sdk : SDK St}.
Variable module_name : string.

(** X1. No operation lets an error out, in any state: an exception that
    leaves an operation other than the constructor is not an instance of
    [Exception]. *)
Theorem operations_raise_no_error (c : api_call) (w : world St) (e : exn) :
  is_init c = false ->
  call_error module_name c w = Some e ->
  Exn.isinstance e Exn.Exception = false.
Proof.
  destruct c as [lvl | self b | self | self b | self b p | self b src dst
                | self b src dst | self b n | self b n | self b];
    simpl; [discriminate | intros _ ..].
  - unfold create_bucket. by_try_block (create_bucket_try self b w);
      try discriminate; intros [= <-]; congruence.
  - unfold list_buckets. by_try_block (list_buckets_try self w);
      try discriminate; intros [= <-]; congruence.
  - unfold bucket_exists. by_try_block (bucket_exists_try self b w);
      try discriminate; intros [= <-]; congruence.
  - unfold list_files. by_try_block (list_files_try self b p w);
      try discriminate; intros [= <-]; congruence.
  - unfold upload_file. by_try_block (upload_file_try self b src dst w);
      try discriminate; intros [= <-]; congruence.
  - unfold download_file. by_try_block (download_file_try self b src dst w);
      try discriminate; intros [= <-]; congruence.
  - unfold get_file_metadata. by_try_block (get_file_metadata_try self b n w);
      try discriminate; intros [= <-]; congruence.
  - unfold delete_file. by_try_block (delete_file_try self b n w);
      try discriminate; intros [= <-]; congruence.
  - unfold delete_bucket. by_try_block (delete_bucket_try self b w);
      try discriminate; intros [= <-]; congruence.
Qed.

(** X2. An exception that is not an error (an interrupt, an exit) goes
    through every operation as it is: it is raised to the caller from the
    world the [try] block left, and nothing is logged. *)
Theorem interrupts_pass_through (self : GCSClient) (w w' : world St) (e : exn) :
  Exn.isinstance e Exn.Exception = false ->
  (forall b, create_bucket_try self b w = (Raised e, w') ->
     create_bucket self b w = (Err e, w')) /\
  (list_buckets_try self w = (Raised e, w') ->
     list_buckets self w = (Err e, w')) /\
  (forall b, bucket_exists_try self b w = (Raised e, w') ->
     bucket_exists self b w = (Err e, w')) /\
  (forall b p, list_files_try self b p w = (Raised e, w') ->
     list_files self b p w = (Err e, w')) /\
  (forall b src dst, upload_file_try self b src dst w = (Raised e, w') ->
     upload_file self b src dst w = (Err e, w')) /\
  (forall b src dst, download_file_try self b src dst w = (Raised e, w') ->
     download_file self b src dst w = (Err e, w')) /\
  (forall b n, get_file_metadata_try self b n w = (Raised e, w') ->
     get_file_metadata self b n w = (Err e, w')) /\
  (forall b n, delete_file_try self b n w = (Raised e, w') ->
     delete_file self b n w = (Err e, w')) /\
  (forall b, delete_bucket_try self b w = (Raised e, w') ->
     delete_bucket self b w = (Err e, w')) /\
  (forall lvl, init_try (logger_name module_name)
                 (snd (init_logger module_name lvl w)) = (Raised e, w') ->
     init module_name lvl w = (Err e, w')).
Proof.
  intros He.
  assert (Hnf : Exn.isinstance e Exn.NotFound = false).
  { destruct (Exn.isinstance e Exn.NotFound) eqn:E; [|done].
    apply not_found_is_exception in E. congruence. }
  repeat apply conj; intros;
    match goal with
    | H : _ = (Raised e, w') |- _ =>
        unfold create_bucket, list_buckets, bucket_exists, list_files,
          upload_file, download_file, get_file_metadata, delete_file,
          delete_bucket, init;
        try (rewrite init_logger_run in H; simpl in H);
        unfold def; try (unfold bind at 1; rewrite init_logger_run);
        unfold bind; rewrite (try_raised _ _ _ _ _ H); unfold except; simpl
    end;
    by rewrite ?Hnf, ?He.
Qed.

(** X3. No operation retries or compensates: once its [try] block is over,
    an operation makes no call into the SDK, so it leaves the external
    state (service, files, environment) as the block left it. *)
Theorem handlers_make_no_call (self : GCSClient) (w : world St) :
  (forall b, external (snd (create_bucket self b w)) =
               external (snd (create_bucket_try self b w))) /\
  external (snd (list_buckets self w)) = external (snd (list_buckets_try self w)) /\
  (forall b, external (snd (bucket_exists self b w)) =
               external (snd (bucket_exists_try self b w))) /\
  (forall b p, external (snd (list_files self b p w)) =
                 external (snd (list_files_try self b p w))) /\
  (forall b src dst, external (snd (upload_file self b src dst w)) =
                       external (snd (upload_file_try self b src dst w))) /\
  (forall b src dst, external (snd (download_file self b src dst w)) =
                       external (snd (download_file_try self b src dst w))) /\
  (forall b n, external (snd (get_file_metadata self b n w)) =
                 external (snd (get_file_metadata_try self b n w))) /\
  (forall b n, external (snd (delete_file self b n w)) =
                 external (snd (delete_file_try self b n w))) /\
  (forall b, external (snd (delete_bucket self b w)) =
               external (snd (delete_bucket_try self b w))) /\
  (forall lvl, external (snd (init module_name lvl w)) =
                 external (snd (init_try (logger_name module_name)
                                  (snd (init_logger module_name lvl w))))).
Proof.
  repeat apply conj; intros.
  - unfold create_bucket. by by_try_block (create_bucket_try self b w).
  - unfold list_buckets. by by_try_block (list_buckets_try self w).
  - unfold bucket_exists. by by_try_block (bucket_exists_try self b w).
  - unfold list_files. by by_try_block (list_files_try self b p w).
  - unfold upload_file. by by_try_block (upload_file_try self b src dst w).
  - unfold download_file. by by_try_block (download_file_try self b src dst w).
  - unfold get_file_metadata. by by_try_block (get_file_metadata_try self b n w).
  - unfold delete_file. by by_try_block (delete_file_try self b n w).
  - unfold delete_bucket. by by_try_block (delete_bucket_try self b w).
  - unfold init, def. unfold bind at 1. rewrite init_logger_run. simpl.
    by by_try_block (init_try (logger_name module_name)
                       (mkWorld (configure (logger_name module_name) lvl (logging w))
                          (stdout w) (external w))).
Qed.

(** X4. [create_bucket], [delete_bucket] and [delete_file] return [True]
    exactly when every SDK call of their [try] block returned; the two
    transfers, whose [try] block ends with a [print], exactly when every
    SDK call returned and the write of the confirmation line to the
    standard output returned too. *)
Theorem true_means_every_call_returned (self : GCSClient) (w : world St) :
  (forall b,
     fst (create_bucket self b w) = Ok true <->
     exists bk s, Client_create_bucket (client self) b (external w) = (Ok bk, s)) /\
  (forall b,
     fst (delete_bucket self b w) = Ok true <->
     exists s, Client_delete_bucket (client self) b (external w) = (Ok tt, s)) /\
  (forall b src dst,
     fst (upload_file self b src dst w) = Ok true <->
     exists bk s1 blob s2 s3 s4,
       Client_bucket (client self) b (external w) = (Ok bk, s1) /\
       Bucket_blob bk dst s1 = (Ok blob, s2) /\
       Blob_upload_from_filename blob src s2 = (Ok tt, s3) /\
       sys_stdout_write
         ("File " +:+ src +:+ " uploaded to " +:+ dst +:+ ".") s3 = (Ok tt, s4)) /\
  (forall b src dst,
     fst (download_file self b src dst w) = Ok true <->
     exists bk s1 blob s2 s3 s4,
       Client_bucket (client self) b (external w) = (Ok bk, s1) /\
       Bucket_blob bk src s1 = (Ok blob, s2) /\
       Blob_download_to_filename blob dst s2 = (Ok tt, s3) /\
       sys_stdout_write
         ("Downloaded storage object " +:+ src +:+ " from bucket " +:+ b +:+
          " to local file " +:+ dst +:+ ".") s3 = (Ok tt, s4)) /\
  (forall b n,
     fst (delete_file self b n w) = Ok true <->
     exists bk s1 blob s2 s3,
       Client_bucket (client self) b (external w) = (Ok bk, s1) /\
       Bucket_blob bk n s1 = (Ok blob, s2) /\
       Blob_delete blob s2 = (Ok tt, s3)).
Proof.
  repeat apply conj; intros;
    unfold create_bucket, delete_bucket, upload_file, download_file, delete_file,
      def, try_, except, create_bucket_try, delete_bucket_try, upload_file_try,
      download_file_try, delete_file_try, bind, call, print, pass, ret, return_,
      logger_error, with_logging; simpl.
  - destruct (Client_create_bucket _ _ _) as [[bk|e] s]; simpl.
    + split; [eauto | done].
    + split; [|by intros (? & ? & [=])].
      by destruct (Exn.isinstance e Exn.Exception).
  - destruct (Client_delete_bucket _ _ _) as [[[]|e] s]; simpl.
    + split; [eauto | done].
    + split; [|by intros (? & [=])].
      by destruct (Exn.isinstance e Exn.Exception).
  - destruct (Client_bucket _ _ _) as [[bk|e] s1]; simpl.
    2: { split; [by destruct (Exn.isinstance e Exn.Exception)
                | by intros (? & ? & ? & ? & ? & ? & [=] & _)]. }
    destruct (Bucket_blob bk dst s1) as [[blob|e] s2] eqn:E2; simpl.
    2: { split; [by destruct (Exn.isinstance e Exn.Exception) |].
         intros (? & ? & ? & ? & ? & ? & [= <- <-] & H2 & _). congruence. }
    destruct (Blob_upload_from_filename blob src s2) as [[[]|e] s3] eqn:E3; simpl.
    2: { split; [by destruct (Exn.isinstance e Exn.Exception) |].
         intros (? & ? & ? & ? & ? & ? & [= <- <-] & H2 & H3 & _).
         rewrite E2 in H2. injection H2 as <- <-. congruence. }
    destruct (sys_stdout_write _ s3) as [[[]|e] s4] eqn:E4; simpl.
    + split; [intros _; by exists bk, s1, blob, s2, s3, s4 | done].
    + split; [by destruct (Exn.isinstance e Exn.Exception) |].
      intros (? & ? & ? & ? & ? & ? & [= <- <-] & H2 & H3 & H4).
      rewrite E2 in H2. injection H2 as <- <-.
      rewrite E3 in H3. injection H3 as <-. congruence.
  - destruct (Client_bucket _ _ _) as [[bk|e] s1]; simpl.
    2: { split; [by destruct (Exn.isinstance e Exn.Exception)
                | by intros (? & ? & ? & ? & ? & ? & [=] & _)]. }
    destruct (Bucket_blob bk src s1) as [[blob|e] s2] eqn:E2; simpl.
    2: { split; [by destruct (Exn.isinstance e Exn.Exception) |].
         intros (? & ? & ? & ? & ? & ? & [= <- <-] & H2 & _). congruence. }
    destruct (Blob_download_to_filename blob dst s2) as [[[]|e] s3] eqn:E3; simpl.
    2: { split; [by destruct (Exn.isinstance e Exn.Exception) |].
         intros (? & ? & ? & ? & ? & ? & [= <- <-] & H2 & H3 & _).
         rewrite E2 in H2. injection H2 as <- <-. congruence. }
    destruct (sys_stdout_write _ s3) as [[[]|e] s4] eqn:E4; simpl.
    + split; [intros _; by exists bk, s1, blob, s2, s3, s4 | done].
    + split; [by destruct (Exn.isinstance e Exn.Exception) |].
      intros (? & ? & ? & ? & ? & ? & [= <- <-] & H2 & H3 & H4).
      rewrite E2 in H2. injection H2 as <- <-.
      rewrite E3 in H3. injection H3 as <-. congruence.
  - destruct (Client_bucket _ _ _) as [[bk|e] s1]; simpl.
    2: { split; [by destruct (Exn.isinstance e Exn.Exception)
                | by intros (? & ? & ? & ? & ? & [=] & _)]. }
    destruct (Bucket_blob bk n s1) as [[blob|e] s2] eqn:E2; simpl.
    2: { split; [by destruct (Exn.isinstance e Exn.Exception) |].
         intros (? & ? & ? & ? & ? & [= <- <-] & H2 & _). congruence. }
    destruct (Blob_delete blob s2) as [[[]|e] s3] eqn:E3; simpl.
    + split; [intros _; by exists bk, s1, blob, s2, s3 | done].
    + split; [by destruct (Exn.isinstance e Exn.Exception) |].
      intros (? & ? & ? & ? & ? & [= <- <-] & H2 & H3).
      rewrite E2 in H2. injection H2 as <- <-. congruence.
Qed.

(** X17. A transfer can return [False] after it was made: when the calls
    of [upload_file] into the SDK returned, so that the object is stored,
    and the write of the confirmation line raises an error, that error is
    caught like any other; the result is [False], with the error record of
    a failed upload, in the external state the upload and the write left. *)
Theorem upload_fails_when_print_fails (self : GCSClient) (b src dst : string)
    (w : world St) bk s1 blob s2 s3 e s4 :
  Client_bucket (client self) b (external w) = (Ok bk, s1) ->
  Bucket_blob bk dst s1 = (Ok blob, s2) ->
  Blob_upload_from_filename blob src s2 = (Ok tt, s3) ->
  sys_stdout_write ("File " +:+ src +:+ " uploaded to " +:+ dst +:+ ".") s3 =
    (Err e, s4) ->
  Exn.isinstance e Exn.Exception = true ->
  upload_file self b src dst w =
    (Ok false,
     logged (logger self) Logging.ERROR
       ("Failed to upload file '" +:+ src +:+ "': " +:+ Exn.str e)
       (mkWorld (logging w) (stdout w) s4)).
Proof.
  intros H1 H2 H3 H4 He.
  unfold upload_file, def, try_, except, upload_file_try, bind, call, print,
    return_, logger_error, with_logging, logged. simpl.
  rewrite H1. simpl. rewrite H2. simpl. rewrite H3. simpl. rewrite H4. simpl.
  by rewrite He.
Qed.

(** Finish an operation from the frame of its [try] block. *)
Ltac by_frame lemma body :=
  let Hl := fresh "Hl" in
  let Hs := fresh "Hs" in
  pose proof lemma as [Hl Hs];
  by_try_block body; simpl in *.

(** X5. What the boolean results say about the log.  [create_bucket],
    [upload_file], [download_file], [delete_file] and [delete_bucket] have
    logged nothing when they return [True], and exactly one record, at
    error level, through the logger of the instance, when they return
    [False].  [bucket_exists] has logged nothing when it returns [True];
    when it returns [False] it has logged either nothing (the answer of
    the service) or exactly one record, at warning or at error level. *)
Theorem false_comes_with_one_error_record (self : GCSClient) (w : world St) :
  (forall b, logs_error_iff_false self w (create_bucket self b w)) /\
  (forall b src dst, logs_error_iff_false self w (upload_file self b src dst w)) /\
  (forall b src dst, logs_error_iff_false self w (download_file self b src dst w)) /\
  (forall b n, logs_error_iff_false self w (delete_file self b n w)) /\
  (forall b, logs_error_iff_false self w (delete_bucket self b w)) /\
  (forall b,
     match fst (bucket_exists self b w) with
     | Ok false =>
         Logging.calls (logging (snd (bucket_exists self b w))) =
           Logging.calls (logging w) \/
         exists lvl msg,
           (lvl = Logging.WARNING \/ lvl = Logging.ERROR) /\
           Logging.calls (logging (snd (bucket_exists self b w))) =
             (Logging.calls (logging w) ++
              [Logging.mkRecord (logger self) lvl msg])%list
     | _ =>
         Logging.calls (logging (snd (bucket_exists self b w))) =
           Logging.calls (logging w)
     end).
Proof.
  repeat apply conj; intros; unfold logs_error_iff_false.
  6: { pose proof (bucket_exists_try_frame self b w) as [Hl _].
       unfold bucket_exists.
       by_try_block (bucket_exists_try self b w); simpl in *; rewrite ?Hl;
         try done.
       - destruct a; [done | by left].
       - destruct r; [done | by left].
       - right. eexists _, _. apply conj; [by left | reflexivity].
       - right. eexists _, _. apply conj; [by right | reflexivity]. }
  - destruct (boolean_try_no_return self b b b b w true) as (Hn & _).
    destruct (boolean_try_no_return self b b b b w false) as (Hn' & _).
    unfold create_bucket.
    by_frame (create_bucket_try_frame self b w) (create_bucket_try self b w);
      rewrite ?Hl; eauto; try done; by destruct r.
  - destruct (boolean_try_no_return self b b src dst w true) as (_ & _ & _ & Hn & _).
    destruct (boolean_try_no_return self b b src dst w false) as (_ & _ & _ & Hn' & _).
    unfold upload_file.
    by_frame (upload_file_try_frame self b src dst w) (upload_file_try self b src dst w);
      rewrite ?Hl; eauto; try done; by destruct r.
  - destruct (boolean_try_no_return self b b src dst w true) as (_ & _ & _ & _ & Hn).
    destruct (boolean_try_no_return self b b src dst w false) as (_ & _ & _ & _ & Hn').
    unfold download_file.
    by_frame (download_file_try_frame self b src dst w)
      (download_file_try self b src dst w);
      rewrite ?Hl; eauto; try done; by destruct r.
  - destruct (boolean_try_no_return self b n b b w true) as (_ & _ & Hn & _).
    destruct (boolean_try_no_return self b n b b w false) as (_ & _ & Hn' & _).
    unfold delete_file.
    by_frame (delete_file_try_frame self b n w) (delete_file_try self b n w);
      rewrite ?Hl; eauto; try done; by destruct r.
  - destruct (boolean_try_no_return self b b b b w true) as (_ & Hn & _).
    destruct (boolean_try_no_return self b b b b w false) as (_ & Hn' & _).
    unfold delete_bucket.
    by_frame (delete_bucket_try_frame self b w) (delete_bucket_try self b w);
      rewrite ?Hl; eauto; try done; by destruct r.
Qed.




(** X7. A listing never makes names up: a result that is not empty is the
    enumeration of the service, name by name and in its order, and
    [list_files] hands its prefix to the service as it is. *)
Theorem listing_is_the_enumeration (self : GCSClient) (w : world St)
    (names : list string) :
  names <> [] ->
  (fst (list_buckets self w) = Ok names ->
     exists bs s,
       Client_list_buckets (client self) (external w) = (Ok bs, s) /\
       names = map Bucket.name bs) /\
  (forall b p,
     fst (list_files self b p w) = Ok names ->
     exists bk s1 blobs s2,
       Client_bucket (client self) b (external w) = (Ok bk, s1) /\
       Bucket_list_blobs bk p s1 = (Ok blobs, s2) /\
       names = map Blob.name blobs).
Proof.
  intros Hne. apply conj; intros;
    match goal with H : fst _ = Ok names |- _ => revert H end;
    unfold list_buckets, list_files, def, try_, except, list_buckets_try,
      list_files_try, bind, call, ret, return_, logger_info, logger_error,
      with_logging; simpl.
  - destruct (Client_list_buckets _ _) as [[bs|e] s]; simpl.
    + intros [= <-]. eauto.
    + destruct (Exn.isinstance e Exn.Exception); simpl; [|done].
      intros [= <-]. done.
  - destruct (Client_bucket _ _ _) as [[bk|e] s1]; simpl.
    2: { destruct (Exn.isinstance e Exn.Exception); simpl; [|done].
         intros [= <-]. done. }
    destruct (Bucket_list_blobs bk p s1) as [[blobs|e] s2] eqn:E2; simpl.
    + intros [= <-]. by exists bk, s1, blobs, s2.
    + destruct (Exn.isinstance e Exn.Exception); simpl; [|done].
      intros [= <-]. done.
Qed.

(** X8. The empty listing is ambiguous in the returned value and told apart
    by the log only: [list_buckets] returns the empty list both when the
    service enumerates no bucket, after an INFO record that counts 0, and
    when the enumeration raises an error, after an ERROR record. *)
Theorem empty_listing_is_told_apart_by_the_log (self : GCSClient) (w : world St) :
  (forall s, Client_list_buckets (client self) (external w) = (Ok [], s) ->
     list_buckets self w =
       (Ok [],
        logged (logger self) Logging.INFO "Found 0 buckets"
          (mkWorld (logging w) (stdout w) s))) /\
  (forall e s, Client_list_buckets (client self) (external w) = (Err e, s) ->
     Exn.isinstance e Exn.Exception = true ->
     list_buckets self w =
       (Ok [],
        logged (logger self) Logging.ERROR ("Failed to list buckets: " +:+ Exn.str e)
          (mkWorld (logging w) (stdout w) s))).
Proof.
  apply conj; intros;
    unfold list_buckets, def, try_, except, list_buckets_try, bind, call, ret,
      return_, logger_info, logger_error, with_logging, logged; simpl;
    match goal with H : Client_list_buckets _ _ = _ |- _ => rewrite H end; simpl.
  - reflexivity.
  - match goal with H : Exn.isinstance _ _ = true |- _ => rewrite H end.
    reflexivity.
Qed.

(** X9. [bucket_exists] claims no bucket the service did not confirm: it
    returns [True] exactly when the existence check returned [True]; and
    whenever the check returns, whatever its answer, that answer is the
    result and nothing is logged. *)
Theorem bucket_exists_is_the_answer (self : GCSClient) (b : string) (w : world St) :
  (fst (bucket_exists self b w) = Ok true <->
   exists bk s1 s2,
     Client_bucket (client self) b (external w) = (Ok bk, s1) /\
     Bucket_exists bk s1 = (Ok true, s2)) /\
  (forall bk s1 answer s2,
     Client_bucket (client self) b (external w) = (Ok bk, s1) ->
     Bucket_exists bk s1 = (Ok answer, s2) ->
     bucket_exists self b w = (Ok answer, mkWorld (logging w) (stdout w) s2)).
Proof.
  apply conj.
  - unfold bucket_exists, def, try_, except, bucket_exists_try, bind, call, ret,
      return_, pass, logger_warning, logger_error, with_logging; simpl.
    destruct (Client_bucket _ _ _) as [[bk|e] s1]; simpl.
    2: { split; [|by intros (? & ? & ? & [=] & _)].
         destruct (Exn.isinstance e Exn.Exception); simpl; [|done].
         by destruct (str_in _ _ || str_in _ _). }
    destruct (Bucket_exists bk s1) as [[answer|e] s2] eqn:E2; simpl.
    + split.
      * intros [= ->]. by exists bk, s1, s2.
      * intros (? & ? & ? & [= <- <-] & H2). congruence.
    + split.
      * destruct (Exn.isinstance e Exn.Exception); simpl; [|done].
        by destruct (str_in _ _ || str_in _ _).
      * intros (? & ? & ? & [= <- <-] & H2). congruence.
  - intros bk s1 answer s2 H1 H2.
    unfold bucket_exists, def, try_, bucket_exists_try, bind, call, return_.
    rewrite H1. simpl. rewrite H2. reflexivity.
Qed.

(** X10. Whenever [get_file_metadata] returns a dictionary, it has exactly
    the six keys, with the values the reloaded blob reports: a property the
    service left unset is there with the value [None], not left out, and
    the name is the one the blob reports. *)
Theorem metadata_has_six_keys (self : GCSClient) (b n : string) (w : world St)
    (md : metadata_dict) :
  fst (get_file_metadata self b n w) = Ok (Some md) ->
  dom md = metadata_keys /\
  exists bk s1 handle s2 blob s3,
    Client_bucket (client self) b (external w) = (Ok bk, s1) /\
    Bucket_blob bk n s1 = (Ok handle, s2) /\
    Blob_reload handle s2 = (Ok blob, s3) /\
    md !! "name" = Some (PyStr (Blob.name blob)) /\
    md !! "size" = Some (py_of PyInt (Blob.size blob)) /\
    md !! "content_type" = Some (py_of PyStr (Blob.content_type blob)) /\
    md !! "created" = Some (py_of PyDatetime (Blob.time_created blob)) /\
    md !! "updated" = Some (py_of PyDatetime (Blob.updated blob)) /\
    md !! "md5_hash" = Some (py_of PyStr (Blob.md5_hash blob)).
Proof.
  unfold get_file_metadata, def, try_, except, get_file_metadata_try, bind, call,
    ret, return_, logger_warning, logger_error, with_logging; simpl.
  destruct (Client_bucket _ _ _) as [[bk|e] s1]; simpl.
  2: { by destruct (Exn.isinstance e Exn.NotFound), (Exn.isinstance e Exn.Exception). }
  destruct (Bucket_blob bk n s1) as [[handle|e] s2] eqn:E2; simpl.
  2: { by destruct (Exn.isinstance e Exn.NotFound), (Exn.isinstance e Exn.Exception). }
  destruct (Blob_reload handle s2) as [[blob|e] s3] eqn:E3; simpl.
  2: { by destruct (Exn.isinstance e Exn.NotFound), (Exn.isinstance e Exn.Exception). }
  intros [= <-]. apply conj.
  - unfold metadata_keys. rewrite !dom_insert_L, dom_empty_L. set_solver.
  - exists bk, s1, handle, s2, blob, s3.
    repeat apply conj; done.
Qed.

(** X11. An operation never touches the configuration of logging: after any
    operation on any instance, the registered loggers, their levels and
    their handlers, and the root logger, are what they were.  Only the
    constructor configures a logger. *)
Theorem operations_keep_the_loggers (c : api_call) (w : world St) :
  is_init c = false ->
  same_loggers (logging w) (logging (run_call module_name c w)).
Proof.
  destruct c; simpl; [discriminate | intros _ ..].
  - apply create_bucket_keeps.
  - apply list_buckets_keeps.
  - apply bucket_exists_keeps.
  - apply list_files_keeps.
  - apply upload_file_keeps.
  - apply download_file_keeps.
  - apply get_file_metadata_keeps.
  - apply delete_file_keeps.
  - apply delete_bucket_keeps.
Qed.

(** The set-up of the constructor registers its logger and touches no
    other. *)
Lemma configure_registers name lvl s :
  Logging.loggerDict (configure name lvl s) !! name =
    Some (Logging.the_logger (configure name lvl s) name).
Proof.
  unfold configure, Logging.addHandler, Logging.setLevel.
  destruct (Logging.handlers _); rewrite the_logger_update;
    unfold Logging.update at 1; simpl; by rewrite lookup_insert_eq.
Qed.

Lemma configure_other name lvl s other :
  other <> name ->
  Logging.loggerDict (configure name lvl s) !! other = Logging.loggerDict s !! other.
Proof.
  intros Hne.
  assert (Hget : Logging.loggerDict (Logging.getLogger name s) !! other =
                 Logging.loggerDict s !! other).
  { unfold Logging.getLogger. destruct (Logging.loggerDict s !! name); [done |].
    simpl. by rewrite lookup_insert_ne. }
  unfold configure, Logging.addHandler, Logging.setLevel.
  destruct (Logging.handlers _); unfold Logging.update; simpl;
    by rewrite ?lookup_insert_ne.
Qed.

Lemma configure_rest name lvl s :
  Logging.root (configure name lvl s) = Logging.root s /\
  Logging.calls (configure name lvl s) = Logging.calls s /\
  Logging.stream (configure name lvl s) = Logging.stream s.
Proof.
  assert (Hget : Logging.root (Logging.getLogger name s) = Logging.root s /\
                 Logging.calls (Logging.getLogger name s) = Logging.calls s /\
                 Logging.stream (Logging.getLogger name s) = Logging.stream s).
  { unfold Logging.getLogger. by destruct (Logging.loggerDict s !! name). }
  unfold configure, Logging.addHandler, Logging.setLevel.
  by destruct (Logging.handlers _).
Qed.

Lemma init_keeps_root lvl (w : world St) :
  Logging.root (logging (snd (init module_name lvl w))) = Logging.root (logging w).
Proof.
  destruct (init_loggers module_name lvl w) as [_ Hr]. rewrite Hr.
  apply configure_rest.
Qed.

Lemma init_registers lvl (w : world St) :
  Logging.loggerDict (logging (snd (init module_name lvl w)))
    !! logger_name module_name =
    Some (Logging.mkLogger lvl
            match attached (logger_name module_name) w with
            | [] => [Logging.StreamHandler log_format]
            | h :: hs => h :: hs
            end).
Proof.
  destruct (init_loggers module_name lvl w) as [Hd _].
  by rewrite Hd, configure_registers, the_logger_configure.
Qed.

(** X12. The constructor configures the logger of the class and no other:
    every logger registered under another name, and the root logger, are
    after a construction what they were before. *)
Theorem init_keeps_the_other_loggers (lvl : Z) (w : world St) (other : string) :
  other <> logger_name module_name ->
  Logging.loggerDict (logging (snd (init module_name lvl w))) !! other =
    Logging.loggerDict (logging w) !! other /\
  Logging.root (logging (snd (init module_name lvl w))) = Logging.root (logging w).
Proof.
  intros Hne. destruct (init_loggers module_name lvl w) as [Hd Hr].
  rewrite Hd, Hr. apply conj; [by apply configure_other | apply configure_rest].
Qed.

(** X13. The logger is set up before anything can fail: after a
    construction, whether it returned an instance or raised, the logger of
    the class is registered, its level is the [log_level] given, and it has
    a handler (those it had, or else the new one). *)
Theorem init_always_configures_the_logger (lvl : Z) (w : world St) :
  Logging.loggerDict (logging (snd (init module_name lvl w)))
    !! logger_name module_name =
    Some (Logging.mkLogger lvl
            match attached (logger_name module_name) w with
            | [] => [Logging.StreamHandler log_format]
            | h :: hs => h :: hs
            end).
Proof. apply init_registers. Qed.

Lemma init_try_logging lg (w : world St) :
  logging (snd (init_try lg w)) =
    match fst (init_try lg w) with
    | Normal c =>
        Logging.log lg Logging.INFO
          ("GCS client initialized for project: " +:+ Client.project c) (logging w)
    | _ => logging w
    end.
Proof. unfold init_try. by_calls; done. Qed.

(** X14. A construction that returns an instance has loaded the
    environment file first, then read the credentials path from the
    environment as it is after that, loaded the credentials from that path
    and built the client the instance holds; it has logged one INFO record
    that names the project of that client. *)
Theorem init_success (lvl : Z) (w w' : world St) (i : GCSClient) :
  init module_name lvl w = (Ok i, w') ->
  logger i = logger_name module_name /\
  (exists b s1 c s2,
     load_dotenv (external w) = (Ok b, s1) /\
     from_service_account_file (os_environ_get credentials_variable s1) s1 =
       (Ok c, s2) /\
     storage_Client c s2 = (Ok (client i), external w')) /\
  logging w' =
    Logging.log (logger_name module_name) Logging.INFO
      ("GCS client initialized for project: " +:+ Client.project (client i))
      (configure (logger_name module_name) lvl (logging w)).
Proof.
  intros H. apply conj; [by apply init_logger_name in H |]. revert H.
  unfold init, def. unfold bind at 1. rewrite init_logger_run.
  unfold bind, try_, except, init_try, bind, call, read, ret, raise, logger_info,
    logger_error, with_logging, credentials_variable; simpl.
  destruct (load_dotenv (external w)) as [[b|e] s1]; simpl.
  2: { destruct (Exn.isinstance e Exn.Exception); simpl; discriminate. }
  destruct (from_service_account_file _ s1) as [[c|e] s2] eqn:E2; simpl.
  2: { destruct (Exn.isinstance e Exn.Exception); simpl; discriminate. }
  destruct (storage_Client c s2) as [[cl|e] s3] eqn:E3; simpl.
  2: { destruct (Exn.isinstance e Exn.Exception); simpl; discriminate. }
  intros [= <- <-]. simpl. apply conj; [|done].
  by exists b, s1, c, s2.
Qed.

(** Close a goal on the records an operation added: none, or one. *)
Ltac one_record :=
  eexists; apply conj;
    [ first [ reflexivity | symmetry; apply app_nil_r ]
    | apply conj; [simpl; lia | repeat constructor] ].

(** X15. A use of the class adds at most one record to the log, under the
    logger of the instance it is made on (the logger of the class for a
    construction): whatever an operation does and however it ends, it calls
    a logging method once at most. *)
Theorem one_record_at_most (c : api_call) (w : world St) :
  exists recs,
    Logging.calls (logging (run_call module_name c w)) =
      (Logging.calls (logging w) ++ recs)%list /\
    (length recs <= 1)%nat /\
    Forall (fun r => Logging.rec_name r =
                       match instance_of c with
                       | Some self => logger self
                       | None => logger_name module_name
                       end) recs.
Proof.
  destruct c as [lvl | self b | self | self b | self b p | self b src dst
                | self b src dst | self b n | self b n | self b]; simpl.
  - unfold init, def. unfold bind at 1. rewrite init_logger_run. simpl.
    pose proof (init_try_logging (logger_name module_name)
                  (mkWorld (configure (logger_name module_name) lvl (logging w))
                     (stdout w) (external w))) as Hl.
    destruct (configure_rest (logger_name module_name) lvl (logging w))
      as (_ & Hc & _).
    by_try_block (init_try (logger_name module_name)
                    (mkWorld (configure (logger_name module_name) lvl (logging w))
                       (stdout w) (external w)));
      simpl in *; rewrite ?Hl; simpl; rewrite Hc; one_record.
  - pose proof (create_bucket_try_frame self b w) as [Hl _]. unfold create_bucket.
    by_try_block (create_bucket_try self b w); simpl in *; rewrite ?Hl; one_record.
  - pose proof (list_buckets_try_frame self w) as (_ & Hl & _). unfold list_buckets.
    by_try_block (list_buckets_try self w); simpl in *; rewrite ?Hl; one_record.
  - pose proof (bucket_exists_try_frame self b w) as [Hl _]. unfold bucket_exists.
    by_try_block (bucket_exists_try self b w); simpl in *; rewrite ?Hl; one_record.
  - pose proof (list_files_try_frame self b p w) as (_ & Hl & _). unfold list_files.
    by_try_block (list_files_try self b p w); simpl in *; rewrite ?Hl; one_record.
  - pose proof (upload_file_try_frame self b src dst w) as [Hl _]. unfold upload_file.
    by_try_block (upload_file_try self b src dst w); simpl in *; rewrite ?Hl;
      one_record.
  - pose proof (download_file_try_frame self b src dst w) as [Hl _].
    unfold download_file.
    by_try_block (download_file_try self b src dst w); simpl in *; rewrite ?Hl;
      one_record.
  - pose proof (get_file_metadata_try_frame self b n w) as [Hl _].
    unfold get_file_metadata.
    by_try_block (get_file_metadata_try self b n w); simpl in *; rewrite ?Hl;
      one_record.
  - pose proof (delete_file_try_frame self b n w) as [Hl _]. unfold delete_file.
    by_try_block (delete_file_try self b n w); simpl in *; rewrite ?Hl; one_record.
  - pose proof (delete_bucket_try_frame self b w) as [Hl _]. unfold delete_bucket.
    by_try_block (delete_bucket_try self b w); simpl in *; rewrite ?Hl; one_record.
Qed.








End EveryState.

(** ** More runs on concrete inputs *)

Section ConcreteMore.
#[local] Existing Instance Demo.codecs.
#[local] Existing Instance Service.sdk.

(** An interrupted [create_bucket] lets the interrupt out, and it is no
    error. *)
Lemma operations_raise_no_error_witness :
  call_error (sdk:=Interrupted.sdk) "gcs_client"
    (DoCreateBucket Interrupted.me "t1") Interrupted.boot =
    Some Interrupted.interrupt /\
  Exn.isinstance Interrupted.interrupt Exn.Exception = false.
Proof.
  apply conj; [vm_compute; reflexivity |].
  apply (operations_raise_no_error (sdk:=Interrupted.sdk) "gcs_client"
           (DoCreateBucket Interrupted.me "t1") Interrupted.boot).
  - reflexivity.
  - vm_compute. reflexivity.
Defined.

(** The interrupt leaves [list_buckets] as it is, with nothing logged. *)
Lemma interrupts_pass_through_witness :
  list_buckets (sdk:=Interrupted.sdk) Interrupted.me Interrupted.boot =
    (Err Interrupted.interrupt, Interrupted.boot).
Proof.
  destruct (interrupts_pass_through (sdk:=Interrupted.sdk) "gcs_client"
              Interrupted.me Interrupted.boot Interrupted.boot
              Interrupted.interrupt eq_refl) as (_ & H & _).
  apply H. vm_compute. reflexivity.
Defined.

(** The listing of the bucket with one object. *)
Lemma listing_is_the_enumeration_witness :
  exists bk s1 blobs s2,
    Client_bucket (client Demo.me) "t1" (external (Demo.with_object [])) = (Ok bk, s1) /\
    Bucket_list_blobs bk EmptyString s1 = (Ok blobs, s2) /\
    ["README"] = map Blob.name blobs.
Proof.
  apply (proj2 (listing_is_the_enumeration Demo.me (Demo.with_object [])
                  ["README"] ltac:(discriminate)) "t1" EmptyString).
  vm_compute. reflexivity.
Defined.

(** No bucket in the project, and the service unavailable: the same empty
    list, after an INFO record and after an ERROR record. *)
Lemma empty_listing_is_told_apart_by_the_log_witness :
  list_buckets Demo.me (Demo.started []) =
    (Ok [], logged "gcs_client.GCSClient" Logging.INFO "Found 0 buckets"
              (Demo.started [])) /\
  list_buckets Demo.me (Demo.started [Some Demo.unavailable]) =
    (Ok [], logged "gcs_client.GCSClient" Logging.ERROR
              "Failed to list buckets: 503 Service Unavailable" (Demo.started [])).
Proof.
  apply conj.
  - apply (proj1 (empty_listing_is_told_apart_by_the_log Demo.me
                    (Demo.started [])) (external (Demo.started []))).
    vm_compute. reflexivity.
  - apply (proj2 (empty_listing_is_told_apart_by_the_log Demo.me
                    (Demo.started [Some Demo.unavailable]))
             (Service.error_of Demo.unavailable) (external (Demo.started []))).
    + vm_compute. reflexivity.
    + vm_compute. reflexivity.
Defined.

(** The bucket that was created, and one that was not. *)
Lemma bucket_exists_is_the_answer_witness :
  fst (bucket_exists Demo.me "t1" (Demo.with_bucket [])) = Ok true /\
  bucket_exists Demo.me "t2" (Demo.with_bucket []) = (Ok false, Demo.with_bucket []).
Proof.
  apply conj.
  - apply (proj1 (bucket_exists_is_the_answer Demo.me "t1"
                    (Demo.with_bucket []))).
    exists (Bucket.make "t1"), (external (Demo.with_bucket [])),
      (external (Demo.with_bucket [])).
    apply conj; vm_compute; reflexivity.
  - apply (proj2 (bucket_exists_is_the_answer Demo.me "t2"
                    (Demo.with_bucket []))
             (Bucket.make "t2") (external (Demo.with_bucket [])) false
             (external (Demo.with_bucket []))).
    + vm_compute. reflexivity.
    + vm_compute. reflexivity.
Defined.

(** The metadata of the uploaded object. *)
Lemma metadata_has_six_keys_witness :
  exists md : metadata_dict,
    fst (get_file_metadata Demo.me "t1" "README" (Demo.with_object [])) = Ok (Some md) /\
    dom md = metadata_keys.
Proof.
  eexists. apply conj; [vm_compute; reflexivity |].
  eapply (metadata_has_six_keys Demo.me "t1" "README" (Demo.with_object [])).
  vm_compute. reflexivity.
Defined.

(** A failed [delete_file] leaves the loggers alone. *)
Lemma operations_keep_the_loggers_witness :
  same_loggers (logging (Demo.with_bucket []))
    (logging (snd (delete_file Demo.me "t1" "nope" (Demo.with_bucket [])))).
Proof.
  apply (operations_keep_the_loggers "gcs_client"
           (DoDeleteFile Demo.me "t1" "nope") (Demo.with_bucket [])).
  reflexivity.
Defined.

(** The logger of another library is not touched by a construction. *)
Lemma init_keeps_the_other_loggers_witness :
  Logging.loggerDict (logging (Demo.started [])) !! "urllib3" =
    Logging.loggerDict (logging (Demo.boot [])) !! "urllib3" /\
  Logging.root (logging (Demo.started [])) = Logging.root (logging (Demo.boot [])).
Proof.
  apply (init_keeps_the_other_loggers "gcs_client" Logging.INFO (Demo.boot []) "urllib3").
  discriminate.
Defined.

(** The construction on the demo machine. *)
Lemma init_success_witness :
  logger Demo.me = "gcs_client.GCSClient" /\
  Logging.calls (logging (Demo.started [])) =
    [Logging.mkRecord "gcs_client.GCSClient" Logging.INFO
       "GCS client initialized for project: demo-project"].
Proof.
  destruct (init_success "gcs_client" Logging.INFO (Demo.boot []) (Demo.started [])
              Demo.me) as (Hn & _ & Hl).
  - vm_compute. reflexivity.
  - apply conj; [exact Hn |]. rewrite Hl. vm_compute. reflexivity.
Defined.


(** The standard output closed: the upload is made and [upload_file]
    returns [False]. *)
Lemma upload_fails_when_print_fails_witness :
  fst (upload_file Demo.me "t1" "README" "README"
         (Demo.close_stdout (Demo.with_bucket []))) = Ok false /\
  (exists objs,
     Service.buckets
       (external (snd (upload_file Demo.me "t1" "README" "README"
                         (Demo.close_stdout (Demo.with_bucket [])))))
       !! "t1" = Some objs /\
     Service.data <$> objs !! "README" = Some Demo.readme).
Proof.
  rewrite (upload_fails_when_print_fails Demo.me "t1" "README" "README"
             (Demo.close_stdout (Demo.with_bucket []))
             (Bucket.make "t1")
             (external (Demo.close_stdout (Demo.with_bucket [])))
             (Blob.make (Bucket.make "t1") "README" None None None None None)
             (external (Demo.close_stdout (Demo.with_bucket [])))
             (external (snd (upload_file_try Demo.me "t1" "README" "README"
                               (Demo.close_stdout (Demo.with_bucket [])))))
             (Exn.make Exn.ValueError "I/O operation on closed file.")
             (external (snd (upload_file_try Demo.me "t1" "README" "README"
                               (Demo.close_stdout (Demo.with_bucket []))))));
    [ | vm_compute; reflexivity ..].
  apply conj; [reflexivity |].
  eexists. apply conj; vm_compute; reflexivity.
Defined.

End ConcreteMore.
